(** * fetch_emails_graph.py: device-code login and listing of recent mail

    A shallow embedding of [src/fetch_emails_graph.py].  The script talks to
    three outside parties: the MSAL application object, the web browser and
    the HTTP client.  Every such call, and every [print], is an observable
    call of the program; a run is the program interpreted against a world
    that answers the calls, and yields the list of calls made together with
    the value returned or the exception raised. *)

From Stdlib Require Import ZArith List String Ascii Bool Lia.
From Stdlib Require Import DecimalString.
Import ListNotations.
Local Open Scope string_scope.
Local Open Scope Z_scope.
Set Warnings "-register-all".

(** ** Python values *)

Module Py.

(** The values that [json.loads] and MSAL hand to the script.  A [dict] keeps
    its insertion order, so it is an association list (of distinct keys, as
    Python builds it) read by first match.  A [float] is carried as the text Python prints for it, since the script
    only ever formats or tests such a value. *)
Inductive pyval : Type :=
| PNone
| PBool (b : bool)
| PInt (n : Z)
| PFloat (shown : string)
| PStr (s : string)
| PList (items : list pyval)
| PDict (entries : list (string * pyval)).

Definition pydict : Type := list (string * pyval).

(** [key in d] and [d.get(key)] for a dict. *)
Fixpoint dict_lookup (key : string) (d : pydict) : option pyval :=
  match d with
  | [] => None
  | (k, v) :: rest => if String.eqb k key then Some v else dict_lookup key rest
  end.

Definition dict_mem (key : string) (d : pydict) : bool :=
  match dict_lookup key d with Some _ => true | None => false end.

(** [d.get(key, default)]. *)
Definition dict_get (d : pydict) (key : string) (default : pyval) : pyval :=
  match dict_lookup key d with Some v => v | None => default end.

(** [type(v).__name__]. *)
Definition type_name (v : pyval) : string :=
  match v with
  | PNone => "NoneType"
  | PBool _ => "bool"
  | PInt _ => "int"
  | PFloat _ => "float"
  | PStr _ => "str"
  | PList _ => "list"
  | PDict _ => "dict"
  end.

(** Truth value of an object, as [if not x] tests it. *)
Definition truthy (v : pyval) : bool :=
  match v with
  | PNone => false
  | PBool b => b
  | PInt n => negb (n =? 0)
  | PFloat shown => negb (String.eqb shown "0.0" || String.eqb shown "-0.0")
  | PStr s => negb (String.eqb s "")
  | PList items => match items with [] => false | _ => true end
  | PDict entries => match entries with [] => false | _ => true end
  end.

(** *** [str] and [repr] *)

Definition str_of_int (n : Z) : string :=
  NilZero.string_of_int (Z.to_int n).

Definition nl : string := String "010"%char "".
Definition quote1 : ascii := "039"%char.
Definition quote2 : ascii := "034"%char.
Definition backslash : ascii := "092"%char.

Definition hex_digit (n : N) : ascii :=
  ascii_of_N (if (n <? 10)%N then 48 + n else 87 + n)%N.

(** Characters are code points below 256; [repr] keeps the printable ones. *)
Definition printable (c : ascii) : bool :=
  let n := N_of_ascii c in
  ((32 <=? n) && (n <? 127) || (161 <=? n) && negb (n =? 173))%N.

Fixpoint str_contains (c : ascii) (s : string) : bool :=
  match s with
  | EmptyString => false
  | String a rest => Ascii.eqb a c || str_contains c rest
  end.

Definition repr_char (q : ascii) (c : ascii) : string :=
  if Ascii.eqb c q || Ascii.eqb c backslash then String backslash (String c "")
  else if Ascii.eqb c "009"%char then String backslash "t"
  else if Ascii.eqb c "010"%char then String backslash "n"
  else if Ascii.eqb c "013"%char then String backslash "r"
  else if printable c then String c ""
  else String backslash
         (String "x" (String (hex_digit (N_of_ascii c / 16))
                        (String (hex_digit (N_of_ascii c mod 16)) ""))).

Fixpoint repr_chars (q : ascii) (s : string) : string :=
  match s with
  | EmptyString => ""
  | String c rest => repr_char q c ++ repr_chars q rest
  end.

(** [repr] of a string: single quotes, unless the text has a single quote
    and no double quote. *)
Definition repr_str (s : string) : string :=
  let q := if str_contains quote1 s && negb (str_contains quote2 s)
           then quote2 else quote1 in
  String q (repr_chars q s ++ String q "").

Fixpoint join (sep : string) (parts : list string) : string :=
  match parts with
  | [] => ""
  | [p] => p
  | p :: rest => p ++ sep ++ join sep rest
  end.

Fixpoint repr (v : pyval) : string :=
  match v with
  | PNone => "None"
  | PBool b => if b then "True" else "False"
  | PInt n => str_of_int n
  | PFloat shown => shown
  | PStr s => repr_str s
  | PList items => "[" ++ join ", " (map repr items) ++ "]"
  | PDict entries =>
      "{" ++ join ", " (map (fun kv : string * pyval =>
                               let (k, x) := kv in repr_str k ++ ": " ++ repr x)
                            entries) ++ "}"
  end.

(** [str(v)], which an f-string applies to each interpolated value. *)
Definition str (v : pyval) : string :=
  match v with
  | PStr s => s
  | _ => repr v
  end.

(** [s * n] for a string. *)
Fixpoint str_mul (s : string) (n : nat) : string :=
  match n with
  | O => ""
  | S m => s ++ str_mul s m
  end.

(** *** [json.dumps(v, indent=4)] *)

(** A character inside a JSON string, with [ensure_ascii] left on. *)
Definition json_char (c : ascii) : string :=
  let n := N_of_ascii c in
  if Ascii.eqb c quote2 then String backslash (String quote2 "")
  else if Ascii.eqb c backslash then String backslash (String backslash "")
  else if Ascii.eqb c "008"%char then String backslash "b"
  else if Ascii.eqb c "012"%char then String backslash "f"
  else if Ascii.eqb c "010"%char then String backslash "n"
  else if Ascii.eqb c "013"%char then String backslash "r"
  else if Ascii.eqb c "009"%char then String backslash "t"
  else if ((32 <=? n) && (n <=? 126))%N then String c ""
  else String backslash
         ("u00" ++ String (hex_digit (n / 16)) (String (hex_digit (n mod 16)) "")).

Fixpoint json_chars (s : string) : string :=
  match s with
  | EmptyString => ""
  | String c rest => json_char c ++ json_chars rest
  end.

Definition json_str (s : string) : string :=
  String quote2 (json_chars s ++ String quote2 "").

Definition json_float (shown : string) : string :=
  if String.eqb shown "inf" then "Infinity"
  else if String.eqb shown "-inf" then "-Infinity"
  else if String.eqb shown "nan" then "NaN"
  else shown.

(** [margin] is the indentation of the line the value starts on. *)
Fixpoint dumps (margin : string) (v : pyval) : string :=
  let inner := margin ++ "    " in
  match v with
  | PNone => "null"
  | PBool b => if b then "true" else "false"
  | PInt n => str_of_int n
  | PFloat shown => json_float shown
  | PStr s => json_str s
  | PList [] => "[]"
  | PList items =>
      "[" ++ nl ++ inner
      ++ join ("," ++ nl ++ inner) (map (dumps inner) items)
      ++ nl ++ margin ++ "]"
  | PDict [] => "{}"
  | PDict entries =>
      "{" ++ nl ++ inner
      ++ join ("," ++ nl ++ inner)
           (map (fun kv : string * pyval =>
                   let (k, x) := kv in json_str k ++ ": " ++ dumps inner x)
                entries)
      ++ nl ++ margin ++ "}"
  end.

Definition json_dumps (v : pyval) : string := dumps "" v.

(** *** Exceptions *)

(** The exceptions the script meets; all derive from [Exception].
    [LibraryError] stands for whatever MSAL, [webbrowser] or [requests]
    raise on their own (a transport failure, a body that is not JSON). *)
Inductive exception : Type :=
| AttributeError (msg : string)
| TypeError (msg : string)
| KeyError (key : string)
| ValueError (msg : string)
| HTTPError (msg : string)
| LibraryError (msg : string).

(** [str(e)]. *)
Definition exn_str (e : exception) : string :=
  match e with
  | AttributeError msg => msg
  | TypeError msg => msg
  | KeyError key => repr_str key
  | ValueError msg => msg
  | HTTPError msg => msg
  | LibraryError msg => msg
  end.

(** [v.get(key, default)]: only a dict has the method. *)
Definition get (v : pyval) (key : string) (default : pyval)
  : exception + pyval :=
  match v with
  | PDict d => inr (dict_get d key default)
  | _ => inl (AttributeError
                (String quote1 (type_name v) ++ String quote1 ""
                 ++ " object has no attribute 'get'"))
  end.

(** [d[key]]. *)
Definition getitem (d : pydict) (key : string) : exception + pyval :=
  match dict_lookup key d with
  | Some v => inr v
  | None => inl (KeyError key)
  end.

Fixpoint chars (s : string) : list pyval :=
  match s with
  | EmptyString => []
  | String c rest => PStr (String c "") :: chars rest
  end.

(** The items a [for] loop or [enumerate] draws from a value. *)
Definition iter (v : pyval) : exception + list pyval :=
  match v with
  | PList items => inr items
  | PStr s => inr (chars s)
  | PDict entries => inr (map (fun kv => PStr (fst kv)) entries)
  | _ => inl (TypeError
                (String quote1 (type_name v) ++ String quote1 ""
                 ++ " object is not iterable"))
  end.

End Py.

(** ** Programs, worlds and runs *)

Module Prog.
Import Py.

(** What [requests.get] returns: the status line, the URL that was fetched
    and what [response.json()] gives (a decoding failure is an exception). *)
Record response : Type := Response {
  status_code : Z;
  reason : string;
  url : string;
  json : exception + pyval
}.

(** The calls through which the script touches the outside. *)
Inductive call : Type :=
| Print (line : string)
| PublicClientApplication (client_id authority : string)
| GetAccounts
| AcquireTokenSilent (scopes : list string) (account : pydict)
| InitiateDeviceFlow (scopes : list string)
| WebbrowserOpen (target : pyval)
| AcquireTokenByDeviceFlow (flow : pydict)
| RequestsGet (endpoint : string) (headers params : pydict).

(** What each call gives back.  Library calls return or raise;
    [acquire_token_silent] returns [None] or a dict. *)
Definition answer (c : call) : Type :=
  match c with
  | Print _ => unit
  | PublicClientApplication _ _ => (exception + unit)%type
  | GetAccounts => (exception + list pydict)%type
  | AcquireTokenSilent _ _ => (exception + option pydict)%type
  | InitiateDeviceFlow _ => (exception + pydict)%type
  | WebbrowserOpen _ => (exception + bool)%type
  | AcquireTokenByDeviceFlow _ => (exception + pydict)%type
  | RequestsGet _ _ _ => (exception + response)%type
  end.

(** A program returns, raises, or makes a call and goes on with its answer. *)
Inductive prog (A : Type) : Type :=
| Ret (a : A)
| Raise (e : exception)
| Vis (c : call) (k : answer c -> prog A).

Arguments Ret {A} a.
Arguments Raise {A} e.
Arguments Vis {A} c k.

Fixpoint bind {A B : Type} (p : prog A) (f : A -> prog B) : prog B :=
  match p with
  | Ret a => f a
  | Raise e => Raise e
  | Vis c k => Vis c (fun x => bind (k x) f)
  end.

(** [try: p  except Exception as e: handler e]. *)
Fixpoint try_except {A : Type} (p : prog A) (handler : exception -> prog A)
  : prog A :=
  match p with
  | Ret a => Ret a
  | Raise e => handler e
  | Vis c k => Vis c (fun x => try_except (k x) handler)
  end.

Definition lift {A : Type} (r : exception + A) : prog A :=
  match r with
  | inl e => Raise e
  | inr a => Ret a
  end.

Notation "x <- p ;; q" := (bind p (fun x => q))
  (at level 61, p at next level, right associativity).
Notation "p ;; q" := (bind p (fun _ => q))
  (at level 61, right associativity).

(** [print(line)]; [flush=True] changes nothing of what is written. *)
Definition print (line : string) : prog unit := Vis (Print line) Ret.
Definition new_application (client_id authority : string) : prog unit :=
  Vis (PublicClientApplication client_id authority) lift.
Definition get_accounts : prog (list pydict) := Vis GetAccounts lift.
Definition acquire_token_silent (scopes : list string) (account : pydict)
  : prog (option pydict) := Vis (AcquireTokenSilent scopes account) lift.
Definition initiate_device_flow (scopes : list string) : prog pydict :=
  Vis (InitiateDeviceFlow scopes) lift.
Definition webbrowser_open (target : pyval) : prog bool :=
  Vis (WebbrowserOpen target) lift.
Definition acquire_token_by_device_flow (flow : pydict) : prog pydict :=
  Vis (AcquireTokenByDeviceFlow flow) lift.
Definition requests_get (endpoint : string) (headers params : pydict)
  : prog response := Vis (RequestsGet endpoint headers params) lift.

(** [Response.raise_for_status] of the requests library: an [HTTPError] for
    a 4xx or 5xx status, nothing otherwise. *)
Definition raise_for_status (r : response) : prog unit :=
  if (400 <=? status_code r) && (status_code r <? 500) then
    Raise (HTTPError (str_of_int (status_code r) ++ " Client Error: "
                      ++ reason r ++ " for url: " ++ url r))
  else if (500 <=? status_code r) && (status_code r <? 600) then
    Raise (HTTPError (str_of_int (status_code r) ++ " Server Error: "
                      ++ reason r ++ " for url: " ++ url r))
  else Ret tt.

(** A world answers every call. *)
Definition world : Type := forall c : call, answer c.

(** A run: the calls made, in order, and the outcome. *)
Fixpoint run {A : Type} (w : world) (p : prog A)
  : list call * (exception + A) :=
  match p with
  | Ret a => ([], inr a)
  | Raise e => ([], inl e)
  | Vis c k => let (tr, r) := run w (k (w c)) in (c :: tr, r)
  end.

(** The lines a run printed. *)
Fixpoint console (tr : list call) : list string :=
  match tr with
  | [] => []
  | Print line :: rest => line :: console rest
  | _ :: rest => console rest
  end.

(** Programs whose only calls are [print]s. *)
Inductive only_prints {A : Type} : prog A -> Prop :=
| op_ret (a : A) : only_prints (Ret a)
| op_raise (e : exception) : only_prints (Raise e)
| op_print (line : string) (k : unit -> prog A) :
    only_prints (k tt) -> only_prints (Vis (Print line) k).

End Prog.

(** ** The script *)

Module Script.
Import Py Prog.

Definition CLIENT_ID : string := "14d82eec-204b-4c2f-b7e8-296a70dab67e".
Definition TENANT_ID : string := "common".
Definition SCOPES : list string := ["User.Read"; "Mail.Read"].

Definition authority : string :=
  "https://login.microsoftonline.com/" ++ TENANT_ID.

Definition rule : string := str_mul "=" 60.

(** Lines 28-41: the interactive device-code login. *)
Definition interactive_login : prog pydict :=
  print "No cached token found. Starting interactive login..." ;;
  flow <- initiate_device_flow SCOPES ;;
  if negb (dict_mem "user_code" flow) then
    Raise (ValueError ("Fail to create device flow. Err: "
                       ++ json_dumps (PDict flow)))
  else
    print (nl ++ rule) ;;
    print "USER ACTION REQUIRED:" ;;
    message <- lift (getitem flow "message") ;;
    print (str message) ;;
    print (rule ++ nl) ;;
    target <- lift (getitem flow "verification_uri") ;;
    webbrowser_open target ;;
    acquire_token_by_device_flow flow.

(** [not result] at line 27, for a result that is [None] or a dict. *)
Definition not_result (result : option pydict) : bool :=
  match result with
  | None => true
  | Some d => negb (truthy (PDict d))
  end.

(** Lines 14-41: the result that line 43 inspects. *)
Definition acquire_result : prog pydict :=
  new_application CLIENT_ID authority ;;
  accounts <- get_accounts ;;
  result <- match accounts with
            | [] => Ret None
            | account :: _ =>
                print "Found cached account, attempting silent login..." ;;
                acquire_token_silent SCOPES account
            end ;;
  match result with
  | Some d => if not_result result then interactive_login else Ret d
  | None => interactive_login
  end.

(** Lines 43-48: the token, or the two error lines and [None]. *)
Definition conclude (result : pydict) : prog pyval :=
  match dict_lookup "access_token" result with
  | Some token => Ret token
  | None =>
      print ("Error: " ++ str (dict_get result "error" PNone)) ;;
      print ("Description: "
             ++ str (dict_get result "error_description" PNone)) ;;
      Ret PNone
  end.

Definition authenticate_graph : prog pyval :=
  result <- acquire_result ;;
  conclude result.

Definition endpoint : string := "https://graph.microsoft.com/v1.0/me/messages".

Definition headers (token : pyval) : pydict :=
  [("Authorization", PStr ("Bearer " ++ str token));
   ("Content-Type", PStr "application/json")].

Definition params : pydict :=
  [("$top", PInt 5);
   ("$orderby", PStr "receivedDateTime desc");
   ("$select", PStr "subject,from,receivedDateTime,bodyPreview")].

(** Lines 79-84: the body of the loop. *)
Definition print_email (i : Z) (email : pyval) : prog unit :=
  print ("--- Email " ++ str_of_int i ++ " ---") ;;
  sender <- lift (get email "from" (PDict [])) ;;
  address <- lift (get sender "emailAddress" (PDict [])) ;;
  shown <- lift (get address "address" PNone) ;;
  print ("From:    " ++ str shown) ;;
  subject <- lift (get email "subject" PNone) ;;
  print ("Subject: " ++ str subject) ;;
  date <- lift (get email "receivedDateTime" PNone) ;;
  print ("Date:    " ++ str date) ;;
  preview <- lift (get email "bodyPreview" PNone) ;;
  print ("Preview: " ++ str preview) ;;
  print "".

(** Line 78: [for i, email in enumerate(emails, i)]. *)
Fixpoint print_emails (i : Z) (emails : list pyval) : prog unit :=
  match emails with
  | [] => Ret tt
  | email :: rest => print_email i email ;; print_emails (i + 1) rest
  end.

(** Lines 74-84: what is done with the response. *)
Definition read_messages (response : response) : prog unit :=
  raise_for_status response ;;
  body <- lift (json response) ;;
  emails <- lift (get body "value" (PList [])) ;;
  items <- lift (iter emails) ;;
  print_emails 1 items.

(** Lines 73-84: what the [try] guards. *)
Definition list_messages (token : pyval) : prog unit :=
  response <- requests_get endpoint (headers token) params ;;
  read_messages response.

(** Line 87: the handler of the [try]. *)
Definition report (e : exception) : prog unit :=
  print ("An error occurred: " ++ exn_str e).

Definition banner : string :=
  nl ++ "Successfully authenticated! Fetching emails via Microsoft Graph..."
     ++ nl.

(** Lines 57-87: the fetch step, once a token is at hand. *)
Definition fetch_step (token : pyval) : prog unit :=
  print banner ;;
  try_except (list_messages token) report.

Definition fetch_emails_graph : prog unit :=
  token <- authenticate_graph ;;
  if negb (truthy token) then print "Authentication failed. Exiting."
  else fetch_step token.

End Script.

(** ** Worlds used in examples *)

Module Scenario.
Import Py Prog.

(** A scripted world: every library call returns, with these answers. *)
Record scenario : Type := Scene {
  accounts : list pydict;
  silent : option pydict;
  device_flow : pydict;
  device_result : pydict;
  http : exception + response
}.

Definition world_of (s : scenario) : world :=
  fun c =>
    match c with
    | Print _ => tt
    | PublicClientApplication _ _ => inr tt
    | GetAccounts => inr (accounts s)
    | AcquireTokenSilent _ _ => inr (silent s)
    | InitiateDeviceFlow _ => inr (device_flow s)
    | WebbrowserOpen _ => inr true
    | AcquireTokenByDeviceFlow _ => inr (device_result s)
    | RequestsGet _ _ _ => http s
    end.

Definition ok (body : pyval) : exception + response :=
  inr (Response 200 "OK" Script.endpoint (inr body)).

Definition full_flow : pydict :=
  [("user_code", PStr "A1B2C3");
   ("message", PStr "Open the page and enter the code A1B2C3.");
   ("verification_uri", PStr "https://microsoft.com/devicelogin")].

Definition mail (address subject date preview : string) : pyval :=
  PDict [("subject", PStr subject);
         ("from", PDict [("emailAddress", PDict [("address", PStr address)])]);
         ("receivedDateTime", PStr date);
         ("bodyPreview", PStr preview)].

Definition mail1 : pyval :=
  mail "ann@example.org" "Lunch" "2024-05-02T10:00:00Z" "Noon?".
Definition mail2 : pyval :=
  mail "bob@example.org" "Notes" "2024-05-01T09:30:00Z" "Attached.".

(** A message whose [from] is [null]. *)
Definition null_sender : pyval :=
  PDict [("subject", PStr "Draft"); ("from", PNone);
         ("receivedDateTime", PStr "2024-05-03T08:00:00Z");
         ("bodyPreview", PStr "...")].

(** A message without a [from] key. *)
Definition no_sender : pyval :=
  PDict [("subject", PStr "Draft");
         ("receivedDateTime", PStr "2024-05-03T08:00:00Z");
         ("bodyPreview", PStr "...")].

(** A world whose HTTP client answers with the given outcome. *)
Definition answering (outcome : exception + response) : world :=
  world_of (Scene [] None full_flow [("access_token", PStr "tok")] outcome).

Definition listing (emails : list pyval) : pydict := [("value", PList emails)].

(** The same world with an HTTP client that, as the requests library does,
    refuses an [Authorization] value holding a line break or a carriage
    return, with an exception that quotes the value. *)
Definition refusing_client (w : world) : world :=
  fun c =>
    match c return answer c -> answer c with
    | RequestsGet _ h _ => fun a =>
        match dict_get h "Authorization" PNone with
        | PStr v =>
            if str_contains "010"%char v || str_contains "013"%char v
            then inl (LibraryError
                        ("Invalid leading whitespace, reserved character(s), "
                         ++ "or return character(s) in header value: "
                         ++ repr (PStr v)))
            else a
        | _ => a
        end
    | _ => fun a => a
    end (w c).

End Scenario.

(** ** Message summaries and the vocabulary of the properties *)

Module Summary.
Import Py Prog Script.
Local Open Scope list_scope.

(** The four fields the script shows of a message; an absent field is
    Python's [None]. *)
Record MessageSummary : Type := Summarised {
  sender : pyval;
  subject : pyval;
  received : pyval;
  preview : pyval
}.

Definition is_object (v : pyval) : bool :=
  match v with PDict _ => true | _ => false end.

(** A message object whose [from], and the [emailAddress] inside it, are
    objects wherever they are present. *)
Definition navigable (email : pyval) : bool :=
  match email with
  | PDict d =>
      match dict_lookup "from" d with
      | None => true
      | Some (PDict f) =>
          match dict_lookup "emailAddress" f with
          | None => true
          | Some (PDict _) => true
          | Some _ => false
          end
      | Some _ => false
      end
  | _ => false
  end.

(** A message object in which a key of the path [from.emailAddress.address]
    is absent from the object that should hold it. *)
Definition missing_sender (email : pyval) : bool :=
  match email with
  | PDict d =>
      match dict_lookup "from" d with
      | None => true
      | Some (PDict f) =>
          match dict_lookup "emailAddress" f with
          | None => true
          | Some (PDict a) => negb (dict_mem "address" a)
          | Some _ => false
          end
      | Some _ => false
      end
  | _ => false
  end.

(** A message object whose [from] key is bound to [null]. *)
Definition null_from (email : pyval) : bool :=
  match email with
  | PDict d =>
      match dict_lookup "from" d with
      | Some PNone => true
      | _ => false
      end
  | _ => false
  end.

Definition sender_of (d : pydict) : pyval :=
  match dict_lookup "from" d with
  | Some (PDict f) =>
      match dict_lookup "emailAddress" f with
      | Some (PDict a) => dict_get a "address" PNone
      | _ => PNone
      end
  | _ => PNone
  end.

Definition summarise (email : pyval) : MessageSummary :=
  match email with
  | PDict d =>
      Summarised (sender_of d) (dict_get d "subject" PNone)
        (dict_get d "receivedDateTime" PNone) (dict_get d "bodyPreview" PNone)
  | _ => Summarised PNone PNone PNone PNone
  end.

Definition heading (i : Z) : string :=
  ("--- Email " ++ str_of_int i ++ " ---")%string.

(** The block of console lines of the [i]-th summary. *)
Definition block (i : Z) (m : MessageSummary) : list string :=
  [heading i;
   ("From:    " ++ str (sender m))%string;
   ("Subject: " ++ str (subject m))%string;
   ("Date:    " ++ str (received m))%string;
   ("Preview: " ++ str (preview m))%string;
   ""%string].

Fixpoint blocks (i : Z) (ms : list MessageSummary) : list string :=
  match ms with
  | [] => []
  | m :: rest => block i m ++ blocks (i + 1) rest
  end.

(** The construction of the MSAL application, lines 14-17. *)
Definition application : call := PublicClientApplication CLIENT_ID authority.

(** The line printed before the silent attempt, line 23. *)
Definition found_account : string :=
  "Found cached account, attempting silent login...".

(** The request of line 73, for a given token. *)
Definition request (token : pyval) : call :=
  RequestsGet endpoint (headers token) params.

Definition is_request (c : call) : bool :=
  match c with RequestsGet _ _ _ => true | _ => false end.

Definition is_silent_attempt (c : call) : bool :=
  match c with AcquireTokenSilent _ _ => true | _ => false end.

Definition is_flow_start (c : call) : bool :=
  match c with InitiateDeviceFlow _ => true | _ => false end.

Definition is_flow_wait (c : call) : bool :=
  match c with AcquireTokenByDeviceFlow _ => true | _ => false end.

(** The calls of the device-code flow: its start, the browser, the wait. *)
Definition device_flow_call (c : call) : bool :=
  match c with
  | InitiateDeviceFlow _ | WebbrowserOpen _ | AcquireTokenByDeviceFlow _ => true
  | _ => false
  end.

Definition count (f : call -> bool) (tr : list call) : nat :=
  List.length (filter f tr).




(** The same result with another value under [access_token]. *)
Definition set_token (t : pyval) (d : pydict) : pydict :=
  map (fun kv : string * pyval =>
         if String.eqb (fst kv) "access_token" then (fst kv, t) else kv) d.

(** The same world, except that the token it issues is [t]. *)
Definition with_token (t : pyval) (w : world) : world :=
  fun c =>
    match c return answer c -> answer c with
    | AcquireTokenSilent _ _ => fun a =>
        match a with
        | inr (Some d) => inr (Some (set_token t d))
        | other => other
        end
    | AcquireTokenByDeviceFlow _ => fun a =>
        match a with
        | inr d => inr (set_token t d)
        | other => other
        end
    | _ => fun a => a
    end (w c).

(** A call with the request headers blanked. *)
Definition redact (c : call) : call :=
  match c with
  | RequestsGet e _ p => RequestsGet e [] p
  | other => other
  end.

(** The text of the [AttributeError] that [v.get] raises on a value that
    is not a dict. *)
Definition no_get (v : pyval) : string :=
  (String quote1 (type_name v) ++ String quote1 ""
   ++ " object has no attribute 'get'")%string.

(** The first value on the way to the sender address that is asked for
    [get] without being an object: the message itself, its [from], or the
    [emailAddress] inside it. *)
Definition culprit (email : pyval) : pyval :=
  match email with
  | PDict d =>
      match dict_lookup "from" d with
      | Some (PDict f) =>
          match dict_lookup "emailAddress" f with
          | Some v => v
          | None => PDict []
          end
      | Some v => v
      | None => PDict []
      end
  | v => v
  end.

(** The values a [for] loop cannot draw from. *)
Definition not_iterable (v : pyval) : bool :=
  match v with
  | PNone | PBool _ | PInt _ | PFloat _ => true
  | _ => false
  end.

(** A key that is absent or bound to [null]. *)
Definition blank (key : string) (d : pydict) : Prop :=
  dict_lookup key d = None \/ dict_lookup key d = Some PNone.

Definition no_cached_token : string :=
  "No cached token found. Starting interactive login...".

(** The calls of a complete interactive login, lines 28-41. *)
Definition login_calls (flow : pydict) (message target : pyval) : list call :=
  [Print no_cached_token;
   InitiateDeviceFlow SCOPES;
   Print (nl ++ rule)%string;
   Print "USER ACTION REQUIRED:"%string;
   Print (str message);
   Print (rule ++ nl)%string;
   WebbrowserOpen target;
   AcquireTokenByDeviceFlow flow].

Definition is_browser (c : call) : bool :=
  match c with WebbrowserOpen _ => true | _ => false end.

(** What the script's configuration and its world's earlier answers allow
    a call to be: the application is built with the fixed client and
    authority, the silent attempt is for the first cached account, the
    browser is sent to the [verification_uri] of the flow that was started
    and the wait is on that flow, the request is the fixed one with the
    headers of a truthy token. *)
Definition well_aimed (w : world) (c : call) : Prop :=
  match c with
  | Print _ => True
  | PublicClientApplication client_id auth =>
      client_id = CLIENT_ID /\ auth = authority
  | GetAccounts => True
  | AcquireTokenSilent scopes account =>
      scopes = SCOPES /\ exists others, w GetAccounts = inr (account :: others)
  | InitiateDeviceFlow scopes => scopes = SCOPES
  | WebbrowserOpen target =>
      exists flow, w (InitiateDeviceFlow SCOPES) = inr flow /\
                   dict_lookup "verification_uri" flow = Some target
  | AcquireTokenByDeviceFlow flow => w (InitiateDeviceFlow SCOPES) = inr flow
  | RequestsGet e h p =>
      e = endpoint /\ p = params /\
      exists token, truthy token = true /\ h = headers token
  end.

End Summary.

(** ** Facts about runs *)

Module RunFacts.
Import Py Prog.
Local Open Scope list_scope.

Lemma unit_answer (u : unit) : u = tt.
Proof. destruct u; reflexivity. Qed.

Lemma run_bind {A B : Type} (w : world) (p : prog A) (f : A -> prog B) :
  run w (bind p f) =
  match run w p with
  | (tr, inl e) => (tr, inl e)
  | (tr, inr a) => let (tr', r) := run w (f a) in (tr ++ tr', r)
  end.
Proof.
  induction p as [a | e | c k IH]; simpl.
  - destruct (run w (f a)); reflexivity.
  - reflexivity.
  - rewrite IH. destruct (run w (k (w c))) as [tr [e | a]]; [reflexivity |].
    destruct (run w (f a)); reflexivity.
Qed.

Lemma run_try_except {A : Type} (w : world) (p : prog A) handler :
  run w (try_except p handler) =
  match run w p with
  | (tr, inl e) => let (tr', r) := run w (handler e) in (tr ++ tr', r)
  | (tr, inr a) => (tr, inr a)
  end.
Proof.
  induction p as [a | e | c k IH]; simpl.
  - reflexivity.
  - destruct (run w (handler e)); reflexivity.
  - rewrite IH. destruct (run w (k (w c))) as [tr [e | a]]; [| reflexivity].
    destruct (run w (handler e)); reflexivity.
Qed.

Lemma run_print (w : world) (line : string) :
  run w (print line) = ([Print line], inr tt).
Proof. simpl. rewrite (unit_answer (w (Print line))). reflexivity. Qed.

Lemma run_print_then {A : Type} (w : world) (line : string) (q : prog A) :
  run w (print line ;; q) = let (tr, r) := run w q in (Print line :: tr, r).
Proof. reflexivity. Qed.

Lemma only_prints_bind {A B : Type} (p : prog A) (f : A -> prog B) :
  only_prints p -> (forall a, only_prints (f a)) -> only_prints (bind p f).
Proof.
  intros Hp Hf. induction Hp; simpl; auto using @only_prints.
Qed.

Lemma only_prints_try {A : Type} (p : prog A) handler :
  only_prints p -> (forall e, only_prints (handler e)) ->
  only_prints (try_except p handler).
Proof.
  intros Hp Hh. induction Hp; simpl; auto using @only_prints.
Qed.

Lemma only_prints_lift {A : Type} (r : exception + A) : only_prints (lift r).
Proof. destruct r; constructor. Qed.

Lemma only_prints_print (line : string) : only_prints (print line).
Proof. apply (op_print line Ret). constructor. Qed.

(** Programs that only print run alike in every world. *)
Lemma run_only_prints {A : Type} (w1 w2 : world) (p : prog A) :
  only_prints p -> run w1 p = run w2 p.
Proof.
  induction 1 as [a | e | line k Hk IH]; simpl; try reflexivity.
  rewrite (unit_answer (w1 (Print line))), (unit_answer (w2 (Print line))).
  rewrite IH. reflexivity.
Qed.


End RunFacts.

(** ** The fetch step *)

Module FetchFacts.
Import Py Prog Script Summary RunFacts.
Local Open Scope list_scope.

Lemma run_request_then {B : Type} (w : world) (token : pyval)
      (f : response -> prog B) :
  run w (x <- requests_get endpoint (headers token) params ;; f x) =
  match w (request token) with
  | inl e => ([request token], inl e)
  | inr resp => let (tr, r) := run w (f resp) in (request token :: tr, r)
  end.
Proof.
  unfold request. simpl.
  destruct (w (RequestsGet endpoint (headers token) params)); reflexivity.
Qed.

Lemma raise_for_status_pass (resp : response) :
  status_code resp < 400 -> raise_for_status resp = Ret tt.
Proof.
  intros H. unfold raise_for_status.
  replace (400 <=? status_code resp) with false by (symmetry; apply Z.leb_gt; lia).
  replace (500 <=? status_code resp) with false by (symmetry; apply Z.leb_gt; lia).
  reflexivity.
Qed.

Lemma raise_for_status_fail (resp : response) :
  400 <= status_code resp < 600 ->
  exists msg, raise_for_status resp = Raise (HTTPError msg).
Proof.
  intros H. unfold raise_for_status.
  destruct (Z.ltb_spec (status_code resp) 500) as [Hlt | Hge].
  - replace (400 <=? status_code resp) with true by (symmetry; apply Z.leb_le; lia).
    simpl. eexists. reflexivity.
  - replace (500 <=? status_code resp) with true by (symmetry; apply Z.leb_le; lia).
    replace (status_code resp <? 600) with true by (symmetry; apply Z.ltb_lt; lia).
    rewrite andb_false_r. simpl. eexists. reflexivity.
Qed.

(** One pass of the loop over a navigable message prints its block. *)
Lemma run_print_email_navigable (w : world) (i : Z) (email : pyval) :
  navigable email = true ->
  run w (print_email i email) = (map Print (block i (summarise email)), inr tt).
Proof.
  destruct email as [| | | | | | d]; try discriminate.
  unfold navigable, print_email, block, summarise, sender_of, heading, get, dict_get.
  destruct (dict_lookup "from" d) as [[| | | | | | f] |];
    try discriminate; simpl.
  - destruct (dict_lookup "emailAddress" f) as [[| | | | | | a] |];
      try discriminate; intros _; simpl;
      rewrite (unit_answer (w (Print ""%string))); reflexivity.
  - intros _. simpl. rewrite (unit_answer (w (Print ""%string))). reflexivity.
Qed.

(** One pass over a message whose [from] is [null] prints the heading and
    raises at line 80. *)
Lemma run_print_email_null_from (w : world) (i : Z) (email : pyval) :
  null_from email = true ->
  run w (print_email i email) =
  ([Print (heading i)],
   inl (AttributeError "'NoneType' object has no attribute 'get'")).
Proof.
  destruct email as [| | | | | | d]; try discriminate.
  unfold null_from, print_email, heading, get, dict_get.
  destruct (dict_lookup "from" d) as [[| | | | | | f] |]; try discriminate.
  intros _. reflexivity.
Qed.

Lemma run_print_emails_navigable (w : world) (emails : list pyval) :
  forall i, forallb navigable emails = true ->
  run w (print_emails i emails) =
  (map Print (blocks i (map summarise emails)), inr tt).
Proof.
  induction emails as [| email rest IH]; intros i H; [reflexivity |].
  simpl in H. apply andb_prop in H as [Hhd Htl].
  cbn [print_emails map blocks].
  rewrite run_bind, (run_print_email_navigable w i email Hhd), (IH _ Htl).
  rewrite map_app. reflexivity.
Qed.

(** The loop prints the blocks of a navigable prefix and goes on from there. *)
Lemma run_print_emails_app (w : world) (pre rest : list pyval) :
  forall i, forallb navigable pre = true ->
  run w (print_emails i (pre ++ rest)) =
  let (tr, r) := run w (print_emails (i + Z.of_nat (List.length pre)) rest) in
  (map Print (blocks i (map summarise pre)) ++ tr, r).
Proof.
  induction pre as [| email pre IH]; intros i H.
  - cbn [app List.length Z.of_nat map blocks]. rewrite Z.add_0_r.
    destruct (run w (print_emails i rest)). reflexivity.
  - simpl in H. apply andb_prop in H as [Hhd Htl].
    cbn [app print_emails map blocks].
    rewrite run_bind, (run_print_email_navigable w i email Hhd).
    rewrite (IH (i + 1) Htl).
    change (List.length (email :: pre)) with (S (List.length pre)).
    replace (i + 1 + Z.of_nat (List.length pre))
      with (i + Z.of_nat (S (List.length pre))) by lia.
    destruct (run w (print_emails (i + Z.of_nat (S (List.length pre))) rest)).
    rewrite map_app, <- app_assoc. reflexivity.
Qed.

(** The loop stops at the first pass that raises; what the earlier passes
    printed stays. *)
Lemma run_print_emails_stop (w : world) (pre : list pyval) (bad : pyval)
      (post : list pyval) (tr : list call) (e : exception) :
  forall i, forallb navigable pre = true ->
  run w (print_email (i + Z.of_nat (List.length pre)) bad) = (tr, inl e) ->
  run w (print_emails i (pre ++ bad :: post)) =
  (map Print (blocks i (map summarise pre)) ++ tr, inl e).
Proof.
  induction pre as [| email rest IH]; intros i H Hbad.
  - replace (i + Z.of_nat (List.length (@nil pyval))) with i in Hbad
      by (simpl; lia).
    cbn [app print_emails map blocks]. rewrite run_bind, Hbad. reflexivity.
  - simpl in H. apply andb_prop in H as [Hhd Htl].
    cbn [app print_emails map blocks].
    rewrite run_bind, (run_print_email_navigable w i email Hhd).
    rewrite (IH (i + 1) Htl).
    + rewrite map_app, <- app_assoc. reflexivity.
    + rewrite <- Hbad. f_equal. f_equal.
      change (List.length (email :: rest)) with (S (List.length rest)). lia.
Qed.

(** The fetch step, up to the answer of the HTTP client. *)
Lemma run_fetch_step (w : world) (token : pyval) :
  run w (fetch_step token) =
  match w (request token) with
  | inl e =>
      ([Print banner; request token;
        Print ("An error occurred: " ++ exn_str e)%string], inr tt)
  | inr resp =>
      let (tr, r) := run w (try_except (read_messages resp) report) in
      (Print banner :: request token :: tr, r)
  end.
Proof.
  unfold fetch_step, list_messages.
  rewrite run_print_then, run_try_except, run_request_then.
  destruct (w (request token)) as [e | resp].
  - unfold report. rewrite run_print. reflexivity.
  - rewrite run_try_except.
    destruct (run w (read_messages resp)) as [tr [e | []]]; [| reflexivity].
    destruct (run w (report e)). reflexivity.
Qed.

(** What the fetch step does with a response that passes
    [raise_for_status] and decodes to an object. *)
Lemma run_fetch_step_object (w : world) (token : pyval) (resp : response)
      (d : pydict) :
  w (request token) = inr resp ->
  status_code resp < 400 ->
  json resp = inr (PDict d) ->
  run w (fetch_step token) =
  let (tr, r) :=
    run w (try_except
             (items <- lift (iter (dict_get d "value" (PList []))) ;;
              print_emails 1 items) report) in
  (Print banner :: request token :: tr, r).
Proof.
  intros Hw Hs Hj. rewrite run_fetch_step, Hw.
  unfold read_messages. rewrite (raise_for_status_pass resp Hs).
  cbn [bind]. rewrite Hj. reflexivity.
Qed.

(** The fetch step on a listing of navigable messages. *)
Lemma run_fetch_step_navigable (w : world) (token : pyval) (resp : response)
      (d : pydict) (emails : list pyval) :
  w (request token) = inr resp ->
  status_code resp < 400 ->
  json resp = inr (PDict d) ->
  dict_lookup "value" d = Some (PList emails) ->
  forallb navigable emails = true ->
  run w (fetch_step token) =
    (Print banner :: request token
       :: map Print (blocks 1 (map summarise emails)), inr tt).
Proof.
  intros Hw Hs Hj Hv Hn.
  rewrite (run_fetch_step_object w token resp d Hw Hs Hj).
  unfold dict_get. rewrite Hv. cbn [iter lift bind].
  rewrite run_try_except, (run_print_emails_navigable w emails 1 Hn).
  reflexivity.
Qed.

Lemma missing_sender_navigable (email : pyval) :
  missing_sender email = true -> navigable email = true.
Proof.
  destruct email as [| | | | | | m]; try discriminate.
  unfold missing_sender, navigable.
  destruct (dict_lookup "from" m) as [[| | | | | | f] |]; try discriminate;
    [| reflexivity].
  destruct (dict_lookup "emailAddress" f) as [[| | | | | | a] |];
    try discriminate; reflexivity.
Qed.

Lemma missing_sender_summary (email : pyval) :
  missing_sender email = true -> sender (summarise email) = PNone.
Proof.
  destruct email as [| | | | | | m]; try discriminate.
  unfold missing_sender. cbn [summarise sender]. unfold sender_of.
  destruct (dict_lookup "from" m) as [[| | | | | | f] |]; try reflexivity.
  destruct (dict_lookup "emailAddress" f) as [[| | | | | | a] |];
    try reflexivity.
  unfold dict_mem, dict_get.
  destruct (dict_lookup "address" a); [discriminate | reflexivity].
Qed.

(** The fetch step returns normally, whatever the HTTP client does. *)
Lemma fetch_step_returns (w : world) (token : pyval) :
  exists tr, run w (fetch_step token) = (Print banner :: tr, inr tt).
Proof.
  unfold fetch_step. rewrite run_print_then, run_try_except.
  destruct (run w (list_messages token)) as [tr [e | []]].
  - unfold report. rewrite run_print. eexists. reflexivity.
  - eexists. reflexivity.
Qed.

(** After the request, the fetch step only prints. *)
Lemma only_prints_print_emails (emails : list pyval) :
  forall i, only_prints (print_emails i emails).
Proof.
  induction emails as [| email rest IH]; intros i; cbn [print_emails];
    [constructor |].
  apply only_prints_bind; [| intros; apply IH].
  unfold print_email.
  repeat first [ apply only_prints_print
               | apply only_prints_lift
               | apply only_prints_bind; [| intros ] ].
Qed.

End FetchFacts.

Module Fetch.
Import Py Prog Script Summary Scenario RunFacts FetchFacts.
Local Open Scope list_scope.

(** C1, as stated, fails: a 200 response listing one message object whose
    [from] is [null] yields no summary; the console shows the heading of the
    block and then the error line. *)
Lemma fetch_step_null_sender_counterexample :
  let w := answering (ok (PDict (listing [null_sender]))) in
  forallb is_object [null_sender] = true /\
  console (fst (run w (fetch_step (PStr "tok")))) =
    [banner; "--- Email 1 ---"%string;
     "An error occurred: 'NoneType' object has no attribute 'get'"%string] /\
  console (fst (run w (fetch_step (PStr "tok")))) <>
    banner :: blocks 1 (map summarise [null_sender]).
Proof.
  split; [reflexivity |]. split; [reflexivity |]. discriminate.
Qed.

(** C1 (amended): for every token and every 2xx response whose body lists N
    message objects in which [from] and [from.emailAddress], where present,
    are objects, the fetch step makes the one request and prints exactly the
    N numbered blocks, in the order of the array, each with the sender,
    subject, date and preview of its message ([None] for an absent one), and
    returns normally. *)
Theorem fetch_step_lists_messages (w : world) (token : pyval)
        (resp : response) (d : pydict) (emails : list pyval) :
  w (request token) = inr resp ->
  200 <= status_code resp < 300 ->
  json resp = inr (PDict d) ->
  dict_lookup "value" d = Some (PList emails) ->
  forallb navigable emails = true ->
  run w (fetch_step token) =
    (Print banner :: request token
       :: map Print (blocks 1 (map summarise emails)), inr tt) /\
  List.length (map summarise emails) = List.length emails.
Proof.
  intros Hw Hs Hj Hv Hn. split; [| apply length_map].
  apply (run_fetch_step_navigable w token resp d emails); auto. lia.
Qed.

Lemma fetch_step_lists_messages_witness :
  let w := answering (ok (PDict (listing [mail1; mail2]))) in
  console (fst (run w (fetch_step (PStr "tok")))) =
    [banner;
     "--- Email 1 ---"; "From:    ann@example.org"; "Subject: Lunch";
     "Date:    2024-05-02T10:00:00Z"; "Preview: Noon?"; "";
     "--- Email 2 ---"; "From:    bob@example.org"; "Subject: Notes";
     "Date:    2024-05-01T09:30:00Z"; "Preview: Attached."; ""]%string.
Proof.
  intros w.
  destruct (fetch_step_lists_messages w (PStr "tok")
              (Response 200 "OK" endpoint (inr (PDict (listing [mail1; mail2]))))
              (listing [mail1; mail2]) [mail1; mail2]) as [Hrun _].
  - reflexivity.
  - simpl. lia.
  - reflexivity.
  - reflexivity.
  - reflexivity.
  - rewrite Hrun. reflexivity.
Defined.

(** C4, as stated, fails: a 300 response is not 2xx, yet
    [raise_for_status] lets it pass, its body is read and the message in it
    is printed, with no error line. *)
Lemma fetch_step_redirect_counterexample :
  let resp := Response 300 "Multiple Choices" endpoint
                (inr (PDict (listing [mail1]))) in
  let w := answering (inr resp) in
  ~ (200 <= status_code resp < 300) /\
  console (fst (run w (fetch_step (PStr "tok")))) =
    [banner;
     "--- Email 1 ---"; "From:    ann@example.org"; "Subject: Lunch";
     "Date:    2024-05-02T10:00:00Z"; "Preview: Noon?"; ""]%string.
Proof.
  split; [simpl; lia | reflexivity].
Qed.

(** C4 (amended): when the request raises (a transport failure) or its
    response has a 4xx or 5xx status, the fetch step prints the banner, makes
    the one request, prints one [An error occurred] line and nothing else,
    and returns normally: no summary is printed and the request is not
    repeated. *)
Theorem fetch_failure_is_reported (w : world) (token : pyval) :
  (exists e, w (request token) = inl e) \/
  (exists resp, w (request token) = inr resp /\
                400 <= status_code resp < 600) ->
  exists msg,
    run w (fetch_step token) =
      ([Print banner; request token;
        Print ("An error occurred: " ++ msg)%string], inr tt).
Proof.
  intros [[e He] | [resp [Hw Hs]]]; rewrite run_fetch_step.
  - rewrite He. exists (exn_str e). reflexivity.
  - rewrite Hw. unfold read_messages.
    destruct (raise_for_status_fail resp Hs) as [msg Hmsg].
    rewrite Hmsg. cbn [bind try_except]. unfold report. rewrite run_print.
    exists msg. reflexivity.
Qed.

Lemma fetch_failure_is_reported_witness :
  let w := answering (inr (Response 401 "Unauthorized" endpoint
                             (inr (PDict (listing [mail1]))))) in
  exists msg,
    run w (fetch_step (PStr "tok")) =
      ([Print banner; request (PStr "tok");
        Print ("An error occurred: " ++ msg)%string], inr tt).
Proof.
  intros w. apply (fetch_failure_is_reported w (PStr "tok")).
  right. eexists. split; [reflexivity | simpl; lia].
Defined.

(** C5, as stated, fails: in a 200 response listing a message whose [from]
    is [null] followed by a message without a [from] key, the second message
    lacks the sender path, yet no summary is produced for it: the loop has
    stopped at the first message and the console never shows a sender line
    reading [None]. *)
Lemma missing_sender_after_null_counterexample :
  let w := answering (ok (PDict (listing [null_sender; no_sender]))) in
  missing_sender no_sender = true /\
  console (fst (run w (fetch_step (PStr "tok")))) =
    [banner; "--- Email 1 ---"%string;
     "An error occurred: 'NoneType' object has no attribute 'get'"%string] /\
  ~ In "From:    None"%string
       (console (fst (run w (fetch_step (PStr "tok"))))).
Proof.
  split; [reflexivity |]. split; [reflexivity |].
  simpl. intros [H | [H | [H | []]]]; discriminate H.
Qed.

(** C5 (amended): when a listed message lacks a key of the path
    [from.emailAddress.address] and the messages before it are navigable,
    the message gets its complete block, in which the sender line reads
    [None] (the sender of its summary is [None]); the loop goes on with the
    messages after it, and the fetch step returns normally.  When those
    later messages are navigable too, their blocks follow and nothing else
    is printed. *)
Theorem missing_sender_is_none (w : world) (token : pyval) (resp : response)
        (d : pydict) (pre post : list pyval) (email : pyval) :
  w (request token) = inr resp ->
  200 <= status_code resp < 300 ->
  json resp = inr (PDict d) ->
  dict_lookup "value" d = Some (PList (pre ++ email :: post)) ->
  forallb navigable pre = true ->
  missing_sender email = true ->
  let k := 1 + Z.of_nat (List.length pre) in
  sender (summarise email) = PNone /\
  nth_error (block k (summarise email)) 1 = Some "From:    None"%string /\
  run w (fetch_step token) =
    (Print banner :: request token
       :: map Print (blocks 1 (map summarise pre) ++ block k (summarise email))
       ++ fst (run w (try_except (print_emails (k + 1) post) report)),
     inr tt) /\
  (forallb navigable post = true ->
   fst (run w (try_except (print_emails (k + 1) post) report)) =
   map Print (blocks (k + 1) (map summarise post))).
Proof.
  intros Hw Hs Hj Hv Hpre Hmiss k.
  pose proof (missing_sender_summary email Hmiss) as Hsender.
  pose proof (missing_sender_navigable email Hmiss) as Hnav.
  split; [exact Hsender |]. split; [| split].
  - cbn [block nth_error]. rewrite Hsender. reflexivity.
  - destruct (fetch_step_returns w token) as [tr0 Hret].
    assert (Hrun := run_fetch_step_object w token resp d Hw ltac:(lia) Hj).
    unfold dict_get in Hrun. rewrite Hv in Hrun. cbn [iter lift bind] in Hrun.
    rewrite run_try_except in Hrun.
    rewrite (run_print_emails_app w pre (email :: post) 1 Hpre) in Hrun.
    fold k in Hrun. cbn [print_emails] in Hrun.
    rewrite run_bind, (run_print_email_navigable w k email Hnav) in Hrun.
    rewrite run_try_except.
    destruct (run w (print_emails (k + 1) post)) as [tr [e | []]].
    + destruct (run w (report e)) as [tr' r] eqn:Hreport.
      rewrite Hrun in Hret. inversion Hret; subst.
      rewrite Hrun. cbn [fst]. rewrite map_app, <- !app_assoc. reflexivity.
    + rewrite Hrun. cbn [fst]. rewrite map_app, <- !app_assoc. reflexivity.
  - intros Hpost. rewrite run_try_except.
    rewrite (run_print_emails_navigable w post (k + 1) Hpost). reflexivity.
Qed.

Lemma missing_sender_is_none_witness :
  let w := answering (ok (PDict (listing [mail1; no_sender; mail2]))) in
  console (fst (run w (fetch_step (PStr "tok")))) =
    [banner;
     "--- Email 1 ---"; "From:    ann@example.org"; "Subject: Lunch";
     "Date:    2024-05-02T10:00:00Z"; "Preview: Noon?"; "";
     "--- Email 2 ---"; "From:    None"; "Subject: Draft";
     "Date:    2024-05-03T08:00:00Z"; "Preview: ..."; "";
     "--- Email 3 ---"; "From:    bob@example.org"; "Subject: Notes";
     "Date:    2024-05-01T09:30:00Z"; "Preview: Attached."; ""]%string.
Proof.
  intros w.
  destruct (missing_sender_is_none w (PStr "tok")
              (Response 200 "OK" endpoint
                 (inr (PDict (listing [mail1; no_sender; mail2]))))
              (listing [mail1; no_sender; mail2]) [mail1] [mail2] no_sender)
    as (_ & _ & Hrun & _).
  - reflexivity.
  - simpl. lia.
  - reflexivity.
  - reflexivity.
  - reflexivity.
  - reflexivity.
  - rewrite Hrun. reflexivity.
Defined.

(** C6: when the body of a 2xx response is an object without the [value]
    key, the fetch step prints the banner, makes the request and prints
    nothing more: no summary and no error line; it returns normally. *)
Theorem missing_value_is_empty (w : world) (token : pyval) (resp : response)
        (d : pydict) :
  w (request token) = inr resp ->
  200 <= status_code resp < 300 ->
  json resp = inr (PDict d) ->
  dict_lookup "value" d = None ->
  run w (fetch_step token) = ([Print banner; request token], inr tt).
Proof.
  intros Hw Hs Hj Hv.
  rewrite (run_fetch_step_object w token resp d Hw ltac:(lia) Hj).
  unfold dict_get. rewrite Hv. reflexivity.
Qed.

Lemma missing_value_is_empty_witness :
  let w := answering (ok (PDict [("@odata.context", PStr "messages")])) in
  run w (fetch_step (PStr "tok")) =
    ([Print banner; request (PStr "tok")], inr tt).
Proof.
  intros w.
  apply (missing_value_is_empty w (PStr "tok")
           (Response 200 "OK" endpoint
              (inr (PDict [("@odata.context", PStr "messages")])))
           [("@odata.context", PStr "messages")]).
  - reflexivity.
  - simpl. lia.
  - reflexivity.
  - reflexivity.
Defined.

(** C10: when a listed message has its [from] key bound to [null] and the
    messages before it are navigable, the blocks of the earlier messages are
    printed, then the heading line of that message, then the single line
    [An error occurred: 'NoneType' object has no attribute 'get']; no field
    of that message and nothing of the later messages is printed, and the
    fetch step returns normally. *)
Theorem null_from_stops_listing (w : world) (token : pyval) (resp : response)
        (d : pydict) (pre post : list pyval) (email : pyval) :
  w (request token) = inr resp ->
  200 <= status_code resp < 300 ->
  json resp = inr (PDict d) ->
  dict_lookup "value" d = Some (PList (pre ++ email :: post)) ->
  forallb navigable pre = true ->
  null_from email = true ->
  run w (fetch_step token) =
    (Print banner :: request token
       :: map Print
            (blocks 1 (map summarise pre)
             ++ [heading (1 + Z.of_nat (List.length pre));
                 "An error occurred: 'NoneType' object has no attribute 'get'"
                   %string]),
     inr tt).
Proof.
  intros Hw Hs Hj Hv Hpre Hnull.
  rewrite (run_fetch_step_object w token resp d Hw ltac:(lia) Hj).
  unfold dict_get. rewrite Hv. cbn [iter lift bind].
  rewrite run_try_except.
  rewrite (run_print_emails_stop w pre email post _ _ 1 Hpre
             (run_print_email_null_from w _ email Hnull)).
  unfold report. rewrite run_print. cbn [exn_str].
  rewrite map_app, <- app_assoc. reflexivity.
Qed.

Lemma null_from_stops_listing_witness :
  let w := answering (ok (PDict (listing [mail1; null_sender; mail2]))) in
  console (fst (run w (fetch_step (PStr "tok")))) =
    [banner;
     "--- Email 1 ---"; "From:    ann@example.org"; "Subject: Lunch";
     "Date:    2024-05-02T10:00:00Z"; "Preview: Noon?"; "";
     "--- Email 2 ---";
     "An error occurred: 'NoneType' object has no attribute 'get'"]%string.
Proof.
  intros w.
  rewrite (null_from_stops_listing w (PStr "tok")
             (Response 200 "OK" endpoint
                (inr (PDict (listing [mail1; null_sender; mail2]))))
             (listing [mail1; null_sender; mail2]) [mail1] [mail2] null_sender).
  - reflexivity.
  - reflexivity.
  - simpl. lia.
  - reflexivity.
  - reflexivity.
  - reflexivity.
  - reflexivity.
Defined.

End Fetch.

(** ** Authentication *)

Module AuthFacts.
Import Py Prog Script Summary RunFacts FetchFacts.
Local Open Scope list_scope.

(** Case analysis on everything a run of the script asks of its world. *)
Ltac ask w :=
  repeat (simpl;
          match goal with
          | |- context [w ?c] => destruct (w c)
          | |- context [dict_lookup ?k ?d] => destruct (dict_lookup k d)
          | |- context [match ?x with _ => _ end] => is_var x; destruct x
          end).

(** Authentication never issues the HTTP request, and makes each of its
    token requests at most once. *)
Lemma acquire_result_calls (w : world) :
  let tr := fst (run w acquire_result) in
  count is_request tr = 0%nat /\
  (count is_silent_attempt tr <= 1)%nat /\
  (count is_flow_start tr <= 1)%nat /\
  (count is_flow_wait tr <= 1)%nat.
Proof.
  unfold acquire_result, interactive_login, not_result, dict_mem, getitem, count.
  ask w; repeat split; simpl; lia.
Qed.

(** The run of the silent attempt on a cached account, up to its result. *)
Lemma run_acquire_result_cached (w : world) (account : pydict)
      (others : list pydict) (result : pydict) :
  w application = inr tt ->
  w GetAccounts = inr (account :: others) ->
  w (AcquireTokenSilent SCOPES account) = inr (Some result) ->
  result <> [] ->
  run w acquire_result =
    ([application; GetAccounts; Print found_account;
      AcquireTokenSilent SCOPES account], inr result).
Proof.
  intros Happ Hacc Hsilent Hfull.
  unfold acquire_result, new_application, get_accounts.
  cbn [bind run]. fold application. rewrite Happ. cbn [lift bind run].
  rewrite Hacc. cbn [lift bind run print acquire_token_silent].
  rewrite Hsilent. cbn [lift bind run not_result truthy].
  destruct result as [| entry result]; [contradiction |].
  reflexivity.
Qed.

(** The error branch of lines 45-48. *)
Lemma run_conclude_error (w : world) (result : pydict) :
  dict_lookup "access_token" result = None ->
  run w (conclude result) =
    ([Print ("Error: " ++ str (dict_get result "error" PNone))%string;
      Print ("Description: "
             ++ str (dict_get result "error_description" PNone))%string],
     inr PNone).
Proof. intros H. unfold conclude. rewrite H. reflexivity. Qed.

Lemma run_conclude_token (w : world) (result : pydict) (token : pyval) :
  dict_lookup "access_token" result = Some token ->
  run w (conclude result) = ([], inr token).
Proof. intros H. unfold conclude. rewrite H. reflexivity. Qed.

Lemma lookup_nonempty (key : string) (d : pydict) (v : pyval) :
  dict_lookup key d = Some v -> d <> [].
Proof. destruct d; [discriminate | discriminate]. Qed.

Lemma count_app (f : call -> bool) (tr1 tr2 : list call) :
  count f (tr1 ++ tr2) = (count f tr1 + count f tr2)%nat.
Proof. unfold count. rewrite filter_app, length_app. reflexivity. Qed.

(** The device-code flow is started only after an empty cache or a falsy
    silent result. *)
Lemma device_flow_only_as_fallback (w : world) (scopes : list string) :
  In (InitiateDeviceFlow scopes) (fst (run w authenticate_graph)) ->
  w GetAccounts = inr [] \/
  exists account others result,
    w GetAccounts = inr (account :: others) /\
    w (AcquireTokenSilent SCOPES account) = inr result /\
    not_result result = true.
Proof.
  unfold authenticate_graph. rewrite run_bind.
  unfold acquire_result, new_application, get_accounts.
  cbn [bind run].
  destruct (w (PublicClientApplication CLIENT_ID authority)) as [e | []];
    cbn [lift bind run fst In].
  { intros [H | []]; discriminate. }
  destruct (w GetAccounts) as [e | [| account others]] eqn:Hacc;
    cbn [lift bind run fst In].
  { intros [H | [H | []]]; discriminate. }
  { intros _. left. reflexivity. }
  cbn [print acquire_token_silent bind run].
  destruct (w (AcquireTokenSilent SCOPES account)) as [e | result] eqn:Hsilent;
    cbn [lift bind run fst In].
  { intros [H | [H | [H | [H | []]]]]; discriminate. }
  destruct (not_result result) eqn:Hnot.
  { intros _. right. exists account, others, result. auto. }
  destruct result as [d |]; [| discriminate].
  cbn [run].
  unfold conclude. destruct (dict_lookup "access_token" d); simpl;
    intuition discriminate.
Qed.


(** *** The token and what is observable *)

Lemma console_redact (tr : list call) : console (map redact tr) = console tr.
Proof.
  induction tr as [| c tr IH]; [reflexivity |].
  destruct c; simpl; rewrite IH; reflexivity.
Qed.

Lemma lookup_set_token (t : pyval) (d : pydict) :
  dict_lookup "access_token" (set_token t d) =
  match dict_lookup "access_token" d with
  | Some _ => Some t
  | None => None
  end.
Proof.
  induction d as [| [k v] d IH]; [reflexivity |].
  cbn [set_token map fst dict_lookup].
  destruct (String.eqb k "access_token") eqn:Hk.
  - cbn [dict_lookup]. rewrite Hk. reflexivity.
  - cbn [dict_lookup]. rewrite Hk. exact IH.
Qed.

Lemma lookup_set_token_other (t : pyval) (key : string) (d : pydict) :
  String.eqb key "access_token" = false ->
  dict_lookup key (set_token t d) = dict_lookup key d.
Proof.
  intros Hkey. induction d as [| [k v] d IH]; [reflexivity |].
  cbn [set_token map fst dict_lookup].
  destruct (String.eqb k "access_token") eqn:Hk.
  - cbn [dict_lookup].
    destruct (String.eqb k key) eqn:Hkk; [| exact IH].
    apply String.eqb_eq in Hk, Hkk. subst k. subst key. discriminate Hkey.
  - cbn [dict_lookup]. destruct (String.eqb k key); [reflexivity | exact IH].
Qed.

Lemma not_result_set_token (t : pyval) (d : pydict) :
  not_result (Some (set_token t d)) = not_result (Some d).
Proof. destruct d; reflexivity. Qed.

(** Lines 14-41 make the same calls whatever token the world issues. *)
Lemma run_acquire_result_with_token (t : pyval) (w : world) :
  run (with_token t w) acquire_result =
  (fst (run w acquire_result),
   match snd (run w acquire_result) with
   | inl e => inl e
   | inr d => inr (set_token t d)
   end).
Proof.
  assert (Hlogin : run (with_token t w) interactive_login =
                   (fst (run w interactive_login),
                    match snd (run w interactive_login) with
                    | inl e => inl e
                    | inr d => inr (set_token t d)
                    end)).
  { unfold interactive_login, dict_mem, getitem. ask w; reflexivity. }
  unfold acquire_result, new_application, get_accounts.
  cbn [bind run with_token].
  destruct (w (PublicClientApplication CLIENT_ID authority)) as [e | []];
    [reflexivity |].
  cbn [lift bind run with_token].
  destruct (w GetAccounts) as [e | [| account others]]; [reflexivity | |].
  - cbn [lift bind run]. rewrite Hlogin.
    destruct (run w interactive_login) as [tr [e | d]]; reflexivity.
  - cbn [lift print acquire_token_silent bind run with_token].
    destruct (w (AcquireTokenSilent SCOPES account)) as [e | [d |]];
      [reflexivity | |].
    + cbn [lift bind run]. rewrite not_result_set_token.
      destruct (not_result (Some d)); [| reflexivity].
      rewrite Hlogin.
      destruct (run w interactive_login) as [tr [e | d']]; reflexivity.
    + cbn [lift bind run]. rewrite Hlogin.
      destruct (run w interactive_login) as [tr [e | d]]; reflexivity.
Qed.

Lemma run_conclude_with_token (t : pyval) (w : world) (d : pydict) :
  run (with_token t w) (conclude (set_token t d)) =
  match dict_lookup "access_token" d with
  | Some _ => ([], inr t)
  | None => run w (conclude d)
  end.
Proof.
  unfold conclude, dict_get. rewrite lookup_set_token.
  destruct (dict_lookup "access_token" d); [reflexivity |].
  rewrite !lookup_set_token_other by reflexivity. reflexivity.
Qed.

Lemma only_prints_read_messages (resp : response) :
  only_prints (try_except (read_messages resp) report).
Proof.
  apply only_prints_try; [| intros; apply only_prints_print].
  unfold read_messages.
  apply only_prints_bind.
  - unfold raise_for_status.
    destruct (_ && _); [constructor |]. destruct (_ && _); constructor.
  - intros _.
    repeat first [ apply only_prints_print_emails
                 | apply only_prints_lift
                 | apply only_prints_bind; [| intros ] ].
Qed.

(** The fetch step depends on the world only through the answer to its
    request. *)
Lemma run_fetch_step_world (w1 w2 : world) (token : pyval) :
  w1 (request token) = w2 (request token) ->
  run w1 (fetch_step token) = run w2 (fetch_step token).
Proof.
  intros H. rewrite !run_fetch_step, H.
  destruct (w2 (request token)) as [e | resp]; [reflexivity |].
  rewrite (run_only_prints w1 w2 _ (only_prints_read_messages resp)).
  reflexivity.
Qed.

(** ... and on the token only through the headers of that request. *)
Lemma run_fetch_step_token (w : world) (t1 t2 : pyval) :
  w (request t1) = w (request t2) ->
  map redact (fst (run w (fetch_step t1))) =
  map redact (fst (run w (fetch_step t2))) /\
  snd (run w (fetch_step t1)) = snd (run w (fetch_step t2)).
Proof.
  intros H. rewrite !run_fetch_step, H.
  destruct (w (request t2)) as [e | resp]; [split; reflexivity |].
  destruct (run w (try_except (read_messages resp) report)).
  split; reflexivity.
Qed.

End AuthFacts.

Module Auth.
Import Py Prog Script Summary Scenario RunFacts FetchFacts AuthFacts.
Local Open Scope list_scope.

(** C2: when the cache holds an account and the silent acquisition for it
    returns a result with an access token, [authenticate_graph] returns that
    token after exactly four calls: the application is built, the accounts are
    read, the cached-account line is printed and the silent acquisition is
    made.  No call of the device-code flow occurs (no flow is started, no
    browser is opened, no wait), and nothing else is printed. *)
Theorem cached_token_without_device_flow (w : world) (account : pydict)
        (others : list pydict) (result : pydict) (token : pyval) :
  w application = inr tt ->
  w GetAccounts = inr (account :: others) ->
  w (AcquireTokenSilent SCOPES account) = inr (Some result) ->
  dict_lookup "access_token" result = Some token ->
  run w authenticate_graph =
    ([application; GetAccounts; Print found_account;
      AcquireTokenSilent SCOPES account], inr token) /\
  count device_flow_call (fst (run w authenticate_graph)) = 0%nat /\
  console (fst (run w authenticate_graph)) = [found_account].
Proof.
  intros Happ Hacc Hsilent Htoken.
  assert (Hrun : run w authenticate_graph =
                 ([application; GetAccounts; Print found_account;
                   AcquireTokenSilent SCOPES account], inr token)).
  { unfold authenticate_graph. rewrite run_bind.
    rewrite (run_acquire_result_cached w account others result Happ Hacc
               Hsilent (lookup_nonempty _ _ _ Htoken)).
    rewrite (run_conclude_token w result token Htoken). reflexivity. }
  rewrite Hrun. repeat split.
Qed.

Lemma cached_token_without_device_flow_witness :
  let w := world_of (Scene [[("username", PStr "ann@example.org")]]
                       (Some [("access_token", PStr "tok")])
                       full_flow [] (ok (PDict (listing [])))) in
  run w authenticate_graph =
    ([application; GetAccounts; Print found_account;
      AcquireTokenSilent SCOPES [("username", PStr "ann@example.org")]],
     inr (PStr "tok")).
Proof.
  intros w.
  apply (cached_token_without_device_flow w
           [("username", PStr "ann@example.org")] []
           [("access_token", PStr "tok")] (PStr "tok"));
    reflexivity.
Defined.

(** C3: whenever the result that line 43 inspects carries no access token,
    [authenticate_graph] prints the result's error code and description and
    returns [None]; the program then prints the exit line and returns.  In
    that run the HTTP request is never made, and the silent acquisition, the
    start of the device-code flow and the wait for it are each made at most
    once. *)
Theorem failed_authentication_aborts (w : world) (tr : list call)
        (result : pydict) :
  run w acquire_result = (tr, inr result) ->
  dict_lookup "access_token" result = None ->
  let errors :=
    [Print ("Error: " ++ str (dict_get result "error" PNone))%string;
     Print ("Description: "
            ++ str (dict_get result "error_description" PNone))%string] in
  run w authenticate_graph = (tr ++ errors, inr PNone) /\
  run w fetch_emails_graph =
    (tr ++ errors ++ [Print "Authentication failed. Exiting."%string],
     inr tt) /\
  count is_request (fst (run w fetch_emails_graph)) = 0%nat /\
  (count is_silent_attempt (fst (run w fetch_emails_graph)) <= 1)%nat /\
  (count is_flow_start (fst (run w fetch_emails_graph)) <= 1)%nat /\
  (count is_flow_wait (fst (run w fetch_emails_graph)) <= 1)%nat.
Proof.
  intros Hacq Hnone errors.
  assert (Hauth : run w authenticate_graph = (tr ++ errors, inr PNone)).
  { unfold authenticate_graph. rewrite run_bind, Hacq.
    rewrite (run_conclude_error w result Hnone). reflexivity. }
  assert (Hrun : run w fetch_emails_graph =
                 (tr ++ errors
                     ++ [Print "Authentication failed. Exiting."%string],
                  inr tt)).
  { unfold fetch_emails_graph. rewrite run_bind, Hauth.
    cbn [truthy negb]. rewrite run_print, <- app_assoc. reflexivity. }
  split; [exact Hauth |]. split; [exact Hrun |].
  rewrite Hrun. cbn [fst]. rewrite !count_app.
  pose proof (acquire_result_calls w) as Hcalls. rewrite Hacq in Hcalls.
  cbn [fst] in Hcalls. destruct Hcalls as (H0 & H1 & H2 & H3).
  unfold errors. cbn. repeat split; lia.
Qed.

Lemma failed_authentication_aborts_witness :
  let denied := [("error", PStr "authorization_declined");
                 ("error_description", PStr "The user declined.")] in
  let w := world_of (Scene [] None full_flow denied
                       (ok (PDict (listing [mail1])))) in
  console (fst (run w fetch_emails_graph)) =
    ["No cached token found. Starting interactive login...";
     nl ++ rule; "USER ACTION REQUIRED:";
     "Open the page and enter the code A1B2C3."; rule ++ nl;
     "Error: authorization_declined";
     "Description: The user declined.";
     "Authentication failed. Exiting."]%string.
Proof.
  intros denied w.
  destruct (failed_authentication_aborts w
              [application; GetAccounts;
               Print "No cached token found. Starting interactive login...";
               InitiateDeviceFlow SCOPES;
               Print (nl ++ rule); Print "USER ACTION REQUIRED:";
               Print "Open the page and enter the code A1B2C3.";
               Print (rule ++ nl);
               WebbrowserOpen (PStr "https://microsoft.com/devicelogin");
               AcquireTokenByDeviceFlow full_flow]%string
              denied) as (_ & Hrun & _).
  - reflexivity.
  - reflexivity.
  - rewrite Hrun. reflexivity.
Defined.

(** C9: when the silent acquisition returns a non-empty result without an
    access token, [authenticate_graph] makes no call of the device-code
    flow, prints the [error] and [error_description] of that result and
    returns [None]; and in every run the device-code flow is started only
    if the cache held no account or the silent result was falsy. *)
Theorem silent_error_skips_device_flow (w : world) :
  (forall account others result,
     w application = inr tt ->
     w GetAccounts = inr (account :: others) ->
     w (AcquireTokenSilent SCOPES account) = inr (Some result) ->
     result <> [] ->
     dict_lookup "access_token" result = None ->
     run w authenticate_graph =
       ([application; GetAccounts; Print found_account;
         AcquireTokenSilent SCOPES account;
         Print ("Error: " ++ str (dict_get result "error" PNone))%string;
         Print ("Description: "
                ++ str (dict_get result "error_description" PNone))%string],
        inr PNone)) /\
  (forall scopes,
     In (InitiateDeviceFlow scopes) (fst (run w authenticate_graph)) ->
     w GetAccounts = inr [] \/
     exists account others result,
       w GetAccounts = inr (account :: others) /\
       w (AcquireTokenSilent SCOPES account) = inr result /\
       not_result result = true).
Proof.
  split.
  - intros account others result Happ Hacc Hsilent Hfull Hnone.
    unfold authenticate_graph. rewrite run_bind.
    rewrite (run_acquire_result_cached w account others result Happ Hacc
               Hsilent Hfull).
    rewrite (run_conclude_error w result Hnone). reflexivity.
  - apply device_flow_only_as_fallback.
Qed.

Lemma silent_error_skips_device_flow_witness :
  let failed := [("error", PStr "invalid_grant");
                 ("error_description", PStr "The refresh token expired.")] in
  let w := world_of (Scene [[("username", PStr "ann@example.org")]]
                       (Some failed) full_flow
                       [("access_token", PStr "tok")]
                       (ok (PDict (listing [mail1])))) in
  run w authenticate_graph =
    ([application; GetAccounts; Print found_account;
      AcquireTokenSilent SCOPES [("username", PStr "ann@example.org")];
      Print "Error: invalid_grant"%string;
      Print "Description: The refresh token expired."%string],
     inr PNone).
Proof.
  intros failed w.
  apply (proj1 (silent_error_skips_device_flow w)
           [("username", PStr "ann@example.org")] [] failed);
    try reflexivity.
  discriminate.
Defined.




End Auth.

(** ** More on the listing of messages *)

Module ListingFacts.
Import Py Prog Script Summary RunFacts FetchFacts.
Local Open Scope list_scope.

Lemma run_print_email_stuck (w : world) (i : Z) (email : pyval) :
  navigable email = false ->
  run w (print_email i email) =
  ([Print (heading i)], inl (AttributeError (no_get (culprit email)))).
Proof.
  unfold navigable, culprit, print_email, heading, get, dict_get, no_get.
  destruct email as [| | | | | | d]; try reflexivity.
  destruct (dict_lookup "from" d) as [[| | | | | | f] |];
    try reflexivity; try discriminate.
  simpl.
  destruct (dict_lookup "emailAddress" f) as [[| | | | | | a] |];
    try reflexivity; discriminate.
Qed.

Lemma count_zero_not_in (f : call -> bool) (tr : list call) (c : call) :
  count f tr = 0%nat -> In c tr -> f c = false.
Proof.
  unfold count. induction tr as [| x tr IH]; intros Hc Hin; [destruct Hin |].
  cbn [filter] in Hc. destruct (f x) eqn:Hx; [discriminate |].
  destruct Hin as [-> | Hin]; [exact Hx | exact (IH Hc Hin)].
Qed.

Lemma console_map_print (lines : list string) :
  console (map Print lines) = lines.
Proof.
  induction lines as [| l lines IH]; [reflexivity |].
  cbn [map console]. rewrite IH. reflexivity.
Qed.

(** A program that only prints makes no other call. *)
Lemma only_prints_count {A : Type} (w : world) (p : prog A)
      (f : call -> bool) :
  (forall line, f (Print line) = false) ->
  only_prints p -> count f (fst (run w p)) = 0%nat.
Proof.
  intros Hf Hp. induction Hp as [a | e | line k Hk IH]; try reflexivity.
  cbn [run]. rewrite (unit_answer (w (Print line))).
  destruct (run w (k tt)) as [tr r]. cbn [fst] in *.
  unfold count in *. cbn [filter]. rewrite Hf. exact IH.
Qed.

(** The fetch step makes its one request and otherwise prints. *)
Lemma fetch_step_calls (w : world) (token : pyval) :
  exists tr,
    fst (run w (fetch_step token)) = Print banner :: request token :: tr /\
    forall f, (forall line, f (Print line) = false) -> count f tr = 0%nat.
Proof.
  rewrite run_fetch_step.
  destruct (w (request token)) as [e | resp].
  - eexists. split; [reflexivity |]. intros f Hf.
    unfold count. cbn [filter]. rewrite Hf. reflexivity.
  - pose proof (AuthFacts.only_prints_read_messages resp) as Hp.
    pose proof (fun f Hf => only_prints_count w _ f Hf Hp) as Hcount.
    destruct (run w (try_except (read_messages resp) report)) as [tr r].
    exists tr. cbn [fst] in *. auto.
Qed.

End ListingFacts.

Module Listing.
Import Py Prog Script Summary Scenario RunFacts FetchFacts ListingFacts.
Local Open Scope list_scope.

(** X1: one pass of the loop returns normally, with the complete block of
    the message, exactly when the message is navigable; otherwise it prints
    the heading alone and raises the [AttributeError] of the first value on
    the sender path that is not an object. *)
Theorem print_email_outcome (w : world) (i : Z) (email : pyval) :
  run w (print_email i email) =
  if navigable email
  then (map Print (block i (summarise email)), inr tt)
  else ([Print (heading i)], inl (AttributeError (no_get (culprit email)))).
Proof.
  destruct (navigable email) eqn:H.
  - apply run_print_email_navigable. exact H.
  - apply run_print_email_stuck. exact H.
Qed.

(** X2: whatever the [try] block printed before an exception stays on the
    console; the handler adds the single line [An error occurred: ] followed
    by [str(e)], and the fetch step returns normally.  Without an exception
    no such line is added. *)
Theorem fetch_step_reports_once (w : world) (token : pyval) :
  run w (fetch_step token) =
  match run w (list_messages token) with
  | (tr, inl e) =>
      (Print banner :: tr
         ++ [Print ("An error occurred: " ++ exn_str e)%string], inr tt)
  | (tr, inr _) => (Print banner :: tr, inr tt)
  end.
Proof.
  unfold fetch_step. rewrite run_print_then, run_try_except.
  destruct (run w (list_messages token)) as [tr [e | []]].
  - unfold report. rewrite run_print. reflexivity.
  - reflexivity.
Qed.

(** X3: when the response passes the status check but its body is not a
    JSON object, nothing is listed: the one line after the request is the
    error naming the type of the body. *)
Theorem body_not_object (w : world) (token : pyval) (resp : response)
        (body : pyval) :
  w (request token) = inr resp ->
  status_code resp < 400 ->
  json resp = inr body ->
  is_object body = false ->
  run w (fetch_step token) =
    ([Print banner; request token;
      Print ("An error occurred: " ++ no_get body)%string], inr tt).
Proof.
  intros Hw Hs Hj Hb. rewrite run_fetch_step, Hw.
  unfold read_messages. rewrite (raise_for_status_pass resp Hs).
  cbn [bind]. rewrite Hj. unfold no_get.
  destruct body; try discriminate;
    cbn [lift bind get try_except]; unfold report; rewrite run_print;
    reflexivity.
Qed.

Lemma body_not_object_witness :
  let w := answering (ok (PList [mail1])) in
  console (fst (run w (fetch_step (PStr "tok")))) =
    [banner;
     "An error occurred: 'list' object has no attribute 'get'"%string].
Proof.
  intros w.
  rewrite (body_not_object w (PStr "tok")
             (Response 200 "OK" endpoint (inr (PList [mail1])))
             (PList [mail1])).
  - reflexivity.
  - reflexivity.
  - simpl. lia.
  - reflexivity.
  - reflexivity.
Defined.

(** X4: when the response passes the status check but [response.json()]
    raises, nothing is listed: the one line after the request carries the
    text of that exception. *)
Theorem body_not_decoded (w : world) (token : pyval) (resp : response)
        (e : exception) :
  w (request token) = inr resp ->
  status_code resp < 400 ->
  json resp = inl e ->
  run w (fetch_step token) =
    ([Print banner; request token;
      Print ("An error occurred: " ++ exn_str e)%string], inr tt).
Proof.
  intros Hw Hs Hj. rewrite run_fetch_step, Hw.
  unfold read_messages. rewrite (raise_for_status_pass resp Hs).
  cbn [bind]. rewrite Hj. cbn [lift bind try_except].
  unfold report. rewrite run_print. reflexivity.
Qed.

Lemma body_not_decoded_witness :
  let failure := LibraryError "Expecting value: line 1 column 1 (char 0)" in
  let w := answering (inr (Response 200 "OK" endpoint (inl failure))) in
  console (fst (run w (fetch_step (PStr "tok")))) =
    [banner;
     "An error occurred: Expecting value: line 1 column 1 (char 0)"%string].
Proof.
  intros failure w.
  rewrite (body_not_decoded w (PStr "tok")
             (Response 200 "OK" endpoint (inl failure)) failure).
  - reflexivity.
  - reflexivity.
  - simpl. lia.
  - reflexivity.
Defined.

(** X5: when [value] is bound to [null], a boolean or a number, the loop
    cannot start: nothing is listed and the one line after the request says
    that an object of that type is not iterable. *)
Theorem value_not_iterable (w : world) (token : pyval) (resp : response)
        (d : pydict) (v : pyval) :
  w (request token) = inr resp ->
  status_code resp < 400 ->
  json resp = inr (PDict d) ->
  dict_lookup "value" d = Some v ->
  not_iterable v = true ->
  run w (fetch_step token) =
    ([Print banner; request token;
      Print ("An error occurred: '" ++ type_name v
             ++ "' object is not iterable")%string], inr tt).
Proof.
  intros Hw Hs Hj Hv Hn.
  rewrite (run_fetch_step_object w token resp d Hw Hs Hj).
  unfold dict_get. rewrite Hv.
  destruct v; try discriminate;
    cbn [iter lift bind try_except]; unfold report; rewrite run_print;
    reflexivity.
Qed.

Lemma value_not_iterable_witness :
  let w := answering (ok (PDict [("value", PNone)])) in
  console (fst (run w (fetch_step (PStr "tok")))) =
    [banner; "An error occurred: 'NoneType' object is not iterable"%string].
Proof.
  intros w.
  rewrite (value_not_iterable w (PStr "tok")
             (Response 200 "OK" endpoint (inr (PDict [("value", PNone)])))
             [("value", PNone)] PNone).
  - reflexivity.
  - reflexivity.
  - simpl. lia.
  - reflexivity.
  - reflexivity.
  - reflexivity.
Defined.

(** X6: the listing stops at the first item that is not navigable, whatever
    [value] is iterated (an array, or the keys of an object, or the
    characters of a string): the blocks of the items before it are printed,
    then its heading, then one error line naming the type of the value that
    has no [get]; nothing of the later items is printed and the fetch step
    returns normally. *)
Theorem listing_stops_at_first_fault (w : world) (token : pyval)
        (resp : response) (d : pydict) (pre post : list pyval)
        (email : pyval) :
  w (request token) = inr resp ->
  status_code resp < 400 ->
  json resp = inr (PDict d) ->
  iter (dict_get d "value" (PList [])) = inr (pre ++ email :: post) ->
  forallb navigable pre = true ->
  navigable email = false ->
  run w (fetch_step token) =
    (Print banner :: request token
       :: map Print
            (blocks 1 (map summarise pre)
             ++ [heading (1 + Z.of_nat (List.length pre));
                 ("An error occurred: " ++ no_get (culprit email))%string]),
     inr tt).
Proof.
  intros Hw Hs Hj Hv Hpre Hbad.
  rewrite (run_fetch_step_object w token resp d Hw Hs Hj), Hv.
  cbn [lift bind]. rewrite run_try_except.
  rewrite (run_print_emails_stop w pre email post _ _ 1 Hpre
             (run_print_email_stuck w _ email Hbad)).
  unfold report. rewrite run_print. cbn [exn_str].
  rewrite map_app, <- app_assoc. reflexivity.
Qed.

Lemma listing_stops_at_first_fault_witness :
  let body := PDict [("value", PDict [("error", PStr "throttled")])] in
  let w := answering (ok body) in
  console (fst (run w (fetch_step (PStr "tok")))) =
    [banner; "--- Email 1 ---"%string;
     "An error occurred: 'str' object has no attribute 'get'"%string].
Proof.
  intros body w.
  rewrite (listing_stops_at_first_fault w (PStr "tok")
             (Response 200 "OK" endpoint (inr body))
             [("value", PDict [("error", PStr "throttled")])]
             [] [] (PStr "error")).
  - reflexivity.
  - reflexivity.
  - simpl. lia.
  - reflexivity.
  - reflexivity.
  - reflexivity.
  - reflexivity.
Defined.

(** X7: for the subject, the date and the preview of a navigable message,
    and for the address inside [from.emailAddress], a [null] value and an
    absent key print alike: the line shows [None] and the pass returns
    normally. *)
Theorem blank_fields_print_none (w : world) (i : Z) (d : pydict) :
  navigable (PDict d) = true ->
  let lines := console (fst (run w (print_email i (PDict d)))) in
  snd (run w (print_email i (PDict d))) = inr tt /\
  (blank "subject" d -> nth_error lines 2 = Some "Subject: None"%string) /\
  (blank "receivedDateTime" d ->
   nth_error lines 3 = Some "Date:    None"%string) /\
  (blank "bodyPreview" d ->
   nth_error lines 4 = Some "Preview: None"%string) /\
  (forall f a, dict_lookup "from" d = Some (PDict f) ->
               dict_lookup "emailAddress" f = Some (PDict a) ->
               blank "address" a ->
               nth_error lines 1 = Some "From:    None"%string).
Proof.
  intros Hnav lines. subst lines.
  rewrite (run_print_email_navigable w i (PDict d) Hnav).
  cbn [fst snd]. rewrite console_map_print.
  cbn [block nth_error summarise sender subject received preview].
  unfold blank, sender_of, dict_get.
  split; [reflexivity |].
  repeat split.
  - intros [H | H]; rewrite H; reflexivity.
  - intros [H | H]; rewrite H; reflexivity.
  - intros [H | H]; rewrite H; reflexivity.
  - intros f a Hf Ha [H | H]; rewrite Hf; cbv beta iota; rewrite Ha;
      cbv beta iota; rewrite H; reflexivity.
Qed.

Lemma blank_fields_print_none_witness :
  let d := [("subject", PNone); ("receivedDateTime", PStr "2024-05-04")] in
  nth_error
    (console (fst (run (answering (ok PNone)) (print_email 3 (PDict d))))) 2 =
  Some "Subject: None"%string.
Proof.
  intros d.
  destruct (blank_fields_print_none (answering (ok PNone)) 3 d eq_refl)
    as (_ & Hsubject & _).
  apply Hsubject. right. reflexivity.
Defined.

End Listing.

(** ** More on authentication and on the program as a whole *)

Module LoginFacts.
Import Py Prog Script Summary RunFacts FetchFacts AuthFacts ListingFacts.
Local Open Scope list_scope.

(** A complete interactive login. *)
Lemma run_interactive_login (w : world) (flow : pydict)
      (message target : pyval) (opened : bool) (result : pydict) :
  w (InitiateDeviceFlow SCOPES) = inr flow ->
  dict_mem "user_code" flow = true ->
  dict_lookup "message" flow = Some message ->
  dict_lookup "verification_uri" flow = Some target ->
  w (WebbrowserOpen target) = inr opened ->
  w (AcquireTokenByDeviceFlow flow) = inr result ->
  run w interactive_login = (login_calls flow message target, inr result).
Proof.
  intros Hflow Hcode Hmsg Huri Hopen Hwait.
  unfold interactive_login, initiate_device_flow, getitem.
  cbn [print bind run]. rewrite Hflow. cbn [lift bind run].
  rewrite Hcode, Hmsg. cbn [negb lift bind run print].
  rewrite Huri. cbn [lift bind run webbrowser_open]. rewrite Hopen.
  cbn [lift bind run]. unfold acquire_token_by_device_flow. cbn [run].
  rewrite Hwait. reflexivity.
Qed.

(** With an empty cache, lines 14-41 are the interactive login. *)
Lemma run_acquire_result_empty_cache (w : world) :
  w application = inr tt ->
  w GetAccounts = inr [] ->
  run w acquire_result =
  let (tr, r) := run w interactive_login in
  (application :: GetAccounts :: tr, r).
Proof.
  intros Happ Hacc. unfold acquire_result, new_application, get_accounts.
  cbn [bind run]. fold application. rewrite Happ. cbn [lift bind run].
  rewrite Hacc. cbn [lift bind run].
  destruct (run w interactive_login). reflexivity.
Qed.

(** With a falsy silent result, the interactive login follows the silent
    attempt. *)
Lemma run_acquire_result_fallback (w : world) (account : pydict)
      (others : list pydict) (result : option pydict) :
  w application = inr tt ->
  w GetAccounts = inr (account :: others) ->
  w (AcquireTokenSilent SCOPES account) = inr result ->
  not_result result = true ->
  run w acquire_result =
  let (tr, r) := run w interactive_login in
  (application :: GetAccounts :: Print found_account
     :: AcquireTokenSilent SCOPES account :: tr, r).
Proof.
  intros Happ Hacc Hsilent Hnot.
  unfold acquire_result, new_application, get_accounts.
  cbn [bind run]. fold application. rewrite Happ. cbn [lift bind run].
  rewrite Hacc. cbn [lift bind run print acquire_token_silent].
  rewrite Hsilent. cbn [lift bind run].
  destruct result as [d |]; [rewrite Hnot |];
    destruct (run w interactive_login); reflexivity.
Qed.

Lemma only_prints_conclude (result : pydict) : only_prints (conclude result).
Proof.
  unfold conclude. destruct (dict_lookup "access_token" result).
  - constructor.
  - repeat first [ apply only_prints_print
                 | apply only_prints_bind; [| intros ] ].
    constructor.
Qed.

(** The calls of a program that only prints are prints. *)
Lemma only_prints_aimed {A : Type} (w : world) (p : prog A) :
  only_prints p -> Forall (well_aimed w) (fst (run w p)).
Proof.
  intros Hp. induction Hp as [a | e | line k Hk IH]; try constructor.
  cbn [run]. rewrite (unit_answer (w (Print line))).
  destruct (run w (k tt)) as [tr r]. cbn [fst] in *.
  constructor; [exact I | exact IH].
Qed.

Lemma interactive_login_aimed (w : world) :
  Forall (well_aimed w) (fst (run w interactive_login)).
Proof.
  unfold interactive_login, initiate_device_flow, getitem, dict_mem.
  cbn [print bind run].
  destruct (w (InitiateDeviceFlow SCOPES)) as [e | flow] eqn:Hflow;
    cbn [lift bind run fst].
  { repeat constructor. }
  destruct (dict_lookup "user_code" flow); cbn [negb bind run fst];
    [| repeat constructor].
  destruct (dict_lookup "message" flow) as [message |];
    cbn [lift print bind run fst]; [| repeat constructor].
  destruct (dict_lookup "verification_uri" flow) as [target |] eqn:Huri;
    cbn [lift print bind run fst webbrowser_open]; [| repeat constructor].
  assert (Hopen : well_aimed w (WebbrowserOpen target)).
  { exists flow. split; [exact Hflow | exact Huri]. }
  destruct (w (WebbrowserOpen target)) as [e | opened];
    cbn [lift bind run fst].
  { repeat (constructor; try exact Hopen). }
  unfold acquire_token_by_device_flow. cbn [run].
  destruct (w (AcquireTokenByDeviceFlow flow)) as [e | d]; cbn [lift run fst];
    repeat (constructor; try exact Hopen; try exact Hflow).
Qed.

Lemma authenticate_aimed (w : world) :
  Forall (well_aimed w) (fst (run w authenticate_graph)).
Proof.
  assert (Hacq : Forall (well_aimed w) (fst (run w acquire_result))).
  { pose proof (interactive_login_aimed w) as Hlogin.
    unfold acquire_result, new_application, get_accounts.
    cbn [bind run].
    assert (Happ : well_aimed w (PublicClientApplication CLIENT_ID authority))
      by (split; reflexivity).
    destruct (w (PublicClientApplication CLIENT_ID authority)) as [e | []];
      cbn [lift bind run fst].
    { repeat (constructor; try exact Happ). }
    destruct (w GetAccounts) as [e | [| account others]] eqn:Hacc;
      cbn [lift bind run fst].
    - repeat (constructor; try exact Happ).
    - destruct (run w interactive_login) as [tr r]. cbn [fst] in *.
      repeat (constructor; try exact Happ). exact Hlogin.
    - cbn [print acquire_token_silent bind run].
      assert (Hsilent : well_aimed w (AcquireTokenSilent SCOPES account)).
      { split; [reflexivity |]. exists others. exact Hacc. }
      destruct (w (AcquireTokenSilent SCOPES account)) as [e | result];
        cbn [lift bind run fst].
      { repeat (constructor; try exact Happ; try exact Hsilent). }
      destruct result as [d |]; [destruct (not_result (Some d)) |];
        cbn [run fst];
        try (destruct (run w interactive_login) as [tr r]; cbn [fst] in * );
        repeat (constructor; try exact Happ; try exact Hsilent);
        exact Hlogin. }
  unfold authenticate_graph. rewrite run_bind.
  destruct (run w acquire_result) as [tr [e | d]]; cbn [fst] in *;
    [exact Hacq |].
  pose proof (only_prints_aimed w _ (only_prints_conclude d)) as Hc.
  destruct (run w (conclude d)) as [tr' r]. cbn [fst] in *.
  apply Forall_app. split; assumption.
Qed.

(** Authentication makes each of its library calls at most once. *)
Lemma authenticate_once (w : world) :
  let tr := fst (run w authenticate_graph) in
  count is_request tr = 0%nat /\
  (count is_silent_attempt tr <= 1)%nat /\
  (count is_flow_start tr <= 1)%nat /\
  (count is_browser tr <= 1)%nat /\
  (count is_flow_wait tr <= 1)%nat.
Proof.
  assert (Hacq : let tr := fst (run w acquire_result) in
                 count is_request tr = 0%nat /\
                 (count is_silent_attempt tr <= 1)%nat /\
                 (count is_flow_start tr <= 1)%nat /\
                 (count is_browser tr <= 1)%nat /\
                 (count is_flow_wait tr <= 1)%nat).
  { unfold acquire_result, interactive_login, not_result, dict_mem, getitem,
      count.
    ask w; repeat split; simpl; lia. }
  cbv zeta in *. unfold authenticate_graph. rewrite run_bind.
  destruct (run w acquire_result) as [tr [e | d]]; cbn [fst] in *;
    [exact Hacq |].
  pose proof (fun f Hf => only_prints_count w _ f Hf (only_prints_conclude d))
    as Hc.
  destruct (run w (conclude d)) as [tr' r]. cbn [fst] in *.
  rewrite !count_app.
  rewrite (Hc is_request), (Hc is_silent_attempt), (Hc is_flow_start),
    (Hc is_browser), (Hc is_flow_wait) by reflexivity.
  rewrite !Nat.add_0_r. exact Hacq.
Qed.

Lemma authenticate_no_request (w : world) :
  count is_request (fst (run w authenticate_graph)) = 0%nat.
Proof.
  unfold authenticate_graph. rewrite run_bind.
  destruct (acquire_result_calls w) as [H0 _].
  destruct (run w acquire_result) as [tr [e | d]]; cbn [fst] in *;
    [exact H0 |].
  pose proof (only_prints_count w _ is_request (fun _ => eq_refl)
                (only_prints_conclude d)) as Hc.
  destruct (run w (conclude d)) as [tr' r]. cbn [fst] in *.
  rewrite count_app, H0, Hc. reflexivity.
Qed.

End LoginFacts.

Module Login.
Import Py Prog Script Summary Scenario RunFacts FetchFacts AuthFacts.
Import ListingFacts LoginFacts.
Local Open Scope list_scope.

(** X8: with an empty cache and a device-code response that has
    [user_code], [message] and [verification_uri], [authenticate_graph]
    prints the provider's message between two rules, sends the browser to
    the verification address, waits on the flow, and returns the access
    token of the result.  What [webbrowser.open] returns plays no part. *)
Theorem interactive_login_returns_token (w : world) (flow : pydict)
        (message target : pyval) (opened : bool) (result : pydict)
        (token : pyval) :
  w application = inr tt ->
  w GetAccounts = inr [] ->
  w (InitiateDeviceFlow SCOPES) = inr flow ->
  dict_mem "user_code" flow = true ->
  dict_lookup "message" flow = Some message ->
  dict_lookup "verification_uri" flow = Some target ->
  w (WebbrowserOpen target) = inr opened ->
  w (AcquireTokenByDeviceFlow flow) = inr result ->
  dict_lookup "access_token" result = Some token ->
  run w authenticate_graph =
    (application :: GetAccounts :: login_calls flow message target,
     inr token).
Proof.
  intros Happ Hacc Hflow Hcode Hmsg Huri Hopen Hwait Htoken.
  unfold authenticate_graph.
  rewrite run_bind, (run_acquire_result_empty_cache w Happ Hacc).
  rewrite (run_interactive_login w flow message target opened result
             Hflow Hcode Hmsg Huri Hopen Hwait).
  rewrite (run_conclude_token w result token Htoken).
  rewrite app_nil_r. reflexivity.
Qed.

Lemma interactive_login_returns_token_witness :
  let w := answering (ok (PDict (listing []))) in
  run w authenticate_graph =
    ([application; GetAccounts;
      Print no_cached_token; InitiateDeviceFlow SCOPES;
      Print (nl ++ rule)%string; Print "USER ACTION REQUIRED:"%string;
      Print "Open the page and enter the code A1B2C3."%string;
      Print (rule ++ nl)%string;
      WebbrowserOpen (PStr "https://microsoft.com/devicelogin");
      AcquireTokenByDeviceFlow full_flow],
     inr (PStr "tok")).
Proof.
  intros w.
  apply (interactive_login_returns_token w full_flow
           (PStr "Open the page and enter the code A1B2C3.")
           (PStr "https://microsoft.com/devicelogin") true
           [("access_token", PStr "tok")] (PStr "tok"));
    reflexivity.
Defined.

(** X9: when the silent acquisition for the cached account returns [None]
    or an empty dict, the interactive login follows it: both the
    cached-account line and the no-cached-token line are printed, and the
    token returned is the one of the device-code flow. *)
Theorem falsy_silent_result_falls_back (w : world) (account : pydict)
        (others : list pydict) (silent : option pydict) (flow : pydict)
        (message target : pyval) (opened : bool) (result : pydict)
        (token : pyval) :
  w application = inr tt ->
  w GetAccounts = inr (account :: others) ->
  w (AcquireTokenSilent SCOPES account) = inr silent ->
  silent = None \/ silent = Some [] ->
  w (InitiateDeviceFlow SCOPES) = inr flow ->
  dict_mem "user_code" flow = true ->
  dict_lookup "message" flow = Some message ->
  dict_lookup "verification_uri" flow = Some target ->
  w (WebbrowserOpen target) = inr opened ->
  w (AcquireTokenByDeviceFlow flow) = inr result ->
  dict_lookup "access_token" result = Some token ->
  run w authenticate_graph =
    (application :: GetAccounts :: Print found_account
       :: AcquireTokenSilent SCOPES account
       :: login_calls flow message target,
     inr token).
Proof.
  intros Happ Hacc Hsilent Hfalsy Hflow Hcode Hmsg Huri Hopen Hwait Htoken.
  assert (Hnot : not_result silent = true)
    by (destruct Hfalsy; subst silent; reflexivity).
  unfold authenticate_graph.
  rewrite run_bind,
    (run_acquire_result_fallback w account others silent Happ Hacc Hsilent Hnot).
  rewrite (run_interactive_login w flow message target opened result
             Hflow Hcode Hmsg Huri Hopen Hwait).
  rewrite (run_conclude_token w result token Htoken).
  rewrite app_nil_r. reflexivity.
Qed.

Lemma falsy_silent_result_falls_back_witness :
  let account := [("username", PStr "ann@example.org")] in
  let w := world_of (Scene [account] (Some []) full_flow
                       [("access_token", PStr "tok")]
                       (ok (PDict (listing [])))) in
  console (fst (run w authenticate_graph)) =
    [found_account; no_cached_token; (nl ++ rule)%string;
     "USER ACTION REQUIRED:"%string;
     "Open the page and enter the code A1B2C3."%string; (rule ++ nl)%string].
Proof.
  intros account w.
  rewrite (falsy_silent_result_falls_back w account [] (Some []) full_flow
             (PStr "Open the page and enter the code A1B2C3.")
             (PStr "https://microsoft.com/devicelogin") true
             [("access_token", PStr "tok")] (PStr "tok")).
  - reflexivity.
  - reflexivity.
  - reflexivity.
  - reflexivity.
  - right. reflexivity.
  - reflexivity.
  - reflexivity.
  - reflexivity.
  - reflexivity.
  - reflexivity.
  - reflexivity.
  - reflexivity.
Defined.

(** X10: with an empty cache and a device-code response without
    [user_code], the program ends with the [ValueError] of line 32, whose
    text is the fixed prefix followed by [json.dumps(flow, indent=4)]; the
    instructions are not printed, the browser is not opened and no wait is
    made. *)
Theorem missing_user_code_raises (w : world) (flow : pydict) :
  w application = inr tt ->
  w GetAccounts = inr [] ->
  w (InitiateDeviceFlow SCOPES) = inr flow ->
  dict_mem "user_code" flow = false ->
  run w fetch_emails_graph =
    ([application; GetAccounts; Print no_cached_token;
      InitiateDeviceFlow SCOPES],
     inl (ValueError ("Fail to create device flow. Err: "
                      ++ json_dumps (PDict flow))%string)).
Proof.
  intros Happ Hacc Hflow Hcode.
  unfold fetch_emails_graph, authenticate_graph.
  rewrite !run_bind, (run_acquire_result_empty_cache w Happ Hacc).
  unfold interactive_login, initiate_device_flow.
  cbn [print bind run]. rewrite Hflow. cbn [lift bind run].
  rewrite Hcode. reflexivity.
Qed.

Lemma missing_user_code_raises_witness :
  let refusal := [("error", PStr "unauthorized_client")] in
  let w := world_of (Scene [] None refusal [] (ok (PDict (listing [])))) in
  snd (run w fetch_emails_graph) =
    inl (ValueError ("Fail to create device flow. Err: {" ++ nl
                     ++ "    " ++ String quote2 "error" ++ String quote2 ": "
                     ++ String quote2 "unauthorized_client" ++ String quote2 nl
                     ++ "}")%string).
Proof.
  intros refusal w.
  rewrite (missing_user_code_raises w refusal); reflexivity.
Defined.

(** X11: with an empty cache and a device-code response that has
    [user_code] but no [message], the program ends with [KeyError] for
    [message] after the first rule and the action line; with [message] but
    no [verification_uri] it ends with [KeyError] for [verification_uri]
    after the closing rule.  In both cases the browser is not opened and no
    wait is made. *)
Theorem missing_flow_key_raises (w : world) (flow : pydict) :
  w application = inr tt ->
  w GetAccounts = inr [] ->
  w (InitiateDeviceFlow SCOPES) = inr flow ->
  dict_mem "user_code" flow = true ->
  (dict_lookup "message" flow = None ->
   run w fetch_emails_graph =
     ([application; GetAccounts; Print no_cached_token;
       InitiateDeviceFlow SCOPES; Print (nl ++ rule)%string;
       Print "USER ACTION REQUIRED:"%string],
      inl (KeyError "message"))) /\
  (forall message,
     dict_lookup "message" flow = Some message ->
     dict_lookup "verification_uri" flow = None ->
     run w fetch_emails_graph =
       ([application; GetAccounts; Print no_cached_token;
         InitiateDeviceFlow SCOPES; Print (nl ++ rule)%string;
         Print "USER ACTION REQUIRED:"%string; Print (str message);
         Print (rule ++ nl)%string],
        inl (KeyError "verification_uri"))).
Proof.
  intros Happ Hacc Hflow Hcode.
  assert (Hrun : run w fetch_emails_graph =
                 let (tr, r) := run w interactive_login in
                 match r with
                 | inl e => (application :: GetAccounts :: tr, inl e)
                 | inr d => run w fetch_emails_graph
                 end).
  { unfold fetch_emails_graph at 1, authenticate_graph.
    rewrite !run_bind, (run_acquire_result_empty_cache w Happ Hacc).
    destruct (run w interactive_login) as [tr [e | d]] eqn:Hlogin;
      [reflexivity |].
    unfold fetch_emails_graph, authenticate_graph.
    rewrite !run_bind, (run_acquire_result_empty_cache w Happ Hacc), Hlogin.
    reflexivity. }
  split.
  - intros Hmsg. rewrite Hrun.
    unfold interactive_login, initiate_device_flow, getitem.
    cbn [print bind run]. rewrite Hflow. cbn [lift bind run].
    rewrite Hcode, Hmsg. reflexivity.
  - intros message Hmsg Huri. rewrite Hrun.
    unfold interactive_login, initiate_device_flow, getitem.
    cbn [print bind run]. rewrite Hflow. cbn [lift bind run].
    rewrite Hcode, Hmsg. cbn [negb lift bind run print].
    rewrite Huri. reflexivity.
Qed.

Lemma missing_flow_key_raises_witness :
  let partial := [("user_code", PStr "A1B2C3");
                  ("message", PStr "Enter the code A1B2C3.")] in
  let w := world_of (Scene [] None partial [] (ok (PDict (listing [])))) in
  snd (run w fetch_emails_graph) = inl (KeyError "verification_uri").
Proof.
  intros partial w.
  destruct (missing_flow_key_raises w partial eq_refl eq_refl eq_refl eq_refl)
    as [_ Huri].
  rewrite (Huri (PStr "Enter the code A1B2C3.") eq_refl eq_refl).
  reflexivity.
Defined.

(** X12: when the result carries an access token that is falsy (an empty
    string, [null], zero), the token is returned, no error or description
    line is printed, and the program prints only the exit line after what
    authentication printed: the HTTP request is not made. *)
Theorem falsy_token_exits (w : world) (tr : list call) (result : pydict)
        (token : pyval) :
  run w acquire_result = (tr, inr result) ->
  dict_lookup "access_token" result = Some token ->
  truthy token = false ->
  run w authenticate_graph = (tr, inr token) /\
  run w fetch_emails_graph =
    (tr ++ [Print "Authentication failed. Exiting."%string], inr tt) /\
  count is_request (fst (run w fetch_emails_graph)) = 0%nat.
Proof.
  intros Hacq Htoken Hfalsy.
  assert (Hauth : run w authenticate_graph = (tr, inr token)).
  { unfold authenticate_graph.
    rewrite run_bind, Hacq, (run_conclude_token w result token Htoken).
    rewrite app_nil_r. reflexivity. }
  assert (Hrun : run w fetch_emails_graph =
                 (tr ++ [Print "Authentication failed. Exiting."%string],
                  inr tt)).
  { unfold fetch_emails_graph. rewrite run_bind, Hauth, Hfalsy.
    cbn [negb]. rewrite run_print. reflexivity. }
  split; [exact Hauth |]. split; [exact Hrun |].
  rewrite Hrun. cbn [fst]. rewrite count_app.
  destruct (acquire_result_calls w) as [H0 _]. rewrite Hacq in H0.
  cbn [fst] in H0. rewrite H0. reflexivity.
Qed.

Lemma falsy_token_exits_witness :
  let account := [("username", PStr "ann@example.org")] in
  let w := world_of (Scene [account] (Some [("access_token", PStr "")])
                       full_flow [] (ok (PDict (listing [mail1])))) in
  console (fst (run w fetch_emails_graph)) =
    [found_account; "Authentication failed. Exiting."%string].
Proof.
  intros account w.
  destruct (falsy_token_exits w
              [application; GetAccounts; Print found_account;
               AcquireTokenSilent SCOPES account]
              [("access_token", PStr "")] (PStr "")) as (_ & Hrun & _).
  - reflexivity.
  - reflexivity.
  - reflexivity.
  - rewrite Hrun. reflexivity.
Defined.

(** X13: an exception that ends authentication is not handled by
    [fetch_emails_graph]: the program ends with the same exception after
    the same calls, without the exit line and without an HTTP request. *)
Theorem authentication_fault_propagates (w : world) (tr : list call)
        (e : exception) :
  run w authenticate_graph = (tr, inl e) ->
  run w fetch_emails_graph = (tr, inl e) /\
  count is_request tr = 0%nat.
Proof.
  intros Hauth. split.
  - unfold fetch_emails_graph. rewrite run_bind, Hauth. reflexivity.
  - pose proof (authenticate_no_request w) as H. rewrite Hauth in H.
    exact H.
Qed.

Lemma authentication_fault_propagates_witness :
  let failure := LibraryError "Connection refused" in
  let w : world :=
    fun c =>
      match c with
      | GetAccounts => inl failure
      | other => answering (ok (PDict (listing []))) other
      end in
  run w fetch_emails_graph = ([application; GetAccounts], inl failure).
Proof.
  intros failure w.
  apply (authentication_fault_propagates w [application; GetAccounts] failure).
  reflexivity.
Defined.

(** X14: nothing is retried: in every run the silent acquisition, the start
    of the device-code flow, the opening of the browser, the wait for the
    flow and the HTTP request are each made at most once. *)
Theorem no_call_is_repeated (w : world) :
  let tr := fst (run w fetch_emails_graph) in
  (count is_silent_attempt tr <= 1)%nat /\
  (count is_flow_start tr <= 1)%nat /\
  (count is_browser tr <= 1)%nat /\
  (count is_flow_wait tr <= 1)%nat /\
  (count is_request tr <= 1)%nat.
Proof.
  cbv zeta. unfold fetch_emails_graph. rewrite run_bind.
  pose proof (authenticate_once w) as Hauth. cbv zeta in Hauth.
  destruct (run w authenticate_graph) as [tr [e | token]]; cbn [fst] in *.
  - repeat split; lia.
  - destruct (truthy token); cbn [negb].
    + destruct (fetch_step_calls w token) as (tr' & Hfetch & H0).
      destruct (run w (fetch_step token)) as [trf r]. cbn [fst] in *.
      subst trf.
      change (Print banner :: request token :: tr')
        with ([Print banner; request token] ++ tr').
      rewrite !count_app.
      rewrite (H0 is_request), (H0 is_silent_attempt), (H0 is_flow_start),
        (H0 is_browser), (H0 is_flow_wait) by reflexivity.
      cbn. repeat split; lia.
    + rewrite run_print. cbn [fst]. rewrite !count_app.
      cbn. repeat split; lia.
Qed.

(** X15: in every run, every call the program makes is aimed as the source
    fixes it: the application is built with the fixed client id and
    authority; a silent attempt is for the fixed scopes and the first cached
    account; a device-code flow is started for the fixed scopes; the browser
    is sent to the [verification_uri] of the flow that was started and the
    wait is on that flow; a request goes to the fixed endpoint with the fixed
    parameters and the headers of a truthy token. *)
Theorem calls_are_well_aimed (w : world) :
  Forall (well_aimed w) (fst (run w fetch_emails_graph)).
Proof.
  unfold fetch_emails_graph. rewrite run_bind.
  pose proof (authenticate_aimed w) as Hauth.
  destruct (run w authenticate_graph) as [tr [e | token]]; cbn [fst] in *;
    [exact Hauth |].
  destruct (truthy token) eqn:Htruthy; cbn [negb].
  - rewrite run_fetch_step.
    assert (Hreq : well_aimed w (request token)).
    { split; [reflexivity |]. split; [reflexivity |].
      exists token. split; [exact Htruthy | reflexivity]. }
    destruct (w (request token)) as [e | resp]; cbn [fst].
    + apply Forall_app. split; [exact Hauth |].
      repeat (constructor; try exact Hreq).
    + pose proof (only_prints_aimed w _ (only_prints_read_messages resp))
        as Hrest.
      destruct (run w (try_except (read_messages resp) report)) as [tr' r].
      cbn [fst] in *. apply Forall_app. split; [exact Hauth |].
      repeat (constructor; try exact Hreq). exact Hrest.
  - rewrite run_print. cbn [fst]. apply Forall_app.
    split; [exact Hauth |]. repeat constructor.
Qed.

End Login.

(** ** The bearer token *)

Module TokenFacts.
Import Py Prog Script Summary RunFacts FetchFacts AuthFacts.
Import ListingFacts LoginFacts.
Local Open Scope list_scope.

(** Every request of a run is the request for the token that
    authentication returned, and that token is truthy. *)
Lemma requests_of_run (w : world) (e : string) (h p : pydict) :
  In (RequestsGet e h p) (fst (run w fetch_emails_graph)) ->
  exists token,
    snd (run w authenticate_graph) = inr token /\
    truthy token = true /\
    RequestsGet e h p = request token.
Proof.
  unfold fetch_emails_graph. rewrite run_bind.
  pose proof (authenticate_no_request w) as Hauth.
  destruct (run w authenticate_graph) as [tr [x | token]]; cbn [fst snd] in *.
  - intros Hin. pose proof (count_zero_not_in _ _ _ Hauth Hin) as Hf.
    discriminate Hf.
  - destruct (truthy token) eqn:Htruthy; cbn [negb].
    + destruct (fetch_step_calls w token) as (tr' & Hfetch & H0).
      destruct (run w (fetch_step token)) as [trf r]. cbn [fst] in *.
      subst trf. intros Hin. apply in_app_or in Hin as [Hin | Hin].
      * pose proof (count_zero_not_in _ _ _ Hauth Hin) as Hf. discriminate Hf.
      * destruct Hin as [Hin | [Hin | Hin]].
        -- discriminate Hin.
        -- exists token. auto.
        -- pose proof (count_zero_not_in _ _ _
                         (H0 is_request (fun _ => eq_refl)) Hin) as Hf.
           discriminate Hf.
    + rewrite run_print. cbn [fst]. intros Hin.
      apply in_app_or in Hin as [Hin | [Hin | []]].
      * pose proof (count_zero_not_in _ _ _ Hauth Hin) as Hf. discriminate Hf.
      * discriminate Hin.
Qed.

(** A truthy token that authentication returns is followed by its request. *)
Lemma request_is_made (w : world) (token : pyval) :
  snd (run w authenticate_graph) = inr token ->
  truthy token = true ->
  In (request token) (fst (run w fetch_emails_graph)).
Proof.
  intros Hauth Htruthy. unfold fetch_emails_graph. rewrite run_bind.
  destruct (run w authenticate_graph) as [tr r]. cbn [snd] in Hauth.
  subst r. rewrite Htruthy. cbn [negb].
  destruct (fetch_step_calls w token) as (tr' & Hfetch & _).
  destruct (run w (fetch_step token)) as [trf r]. cbn [fst] in *.
  subst trf. apply in_or_app. right. right. left. reflexivity.
Qed.

(** In a world that issues [t], a truthy token returned by authentication
    is [t]. *)
Lemma token_of_with_token (t : pyval) (w : world) (token : pyval) :
  snd (run (with_token t w) authenticate_graph) = inr token ->
  truthy token = true ->
  token = t.
Proof.
  unfold authenticate_graph.
  rewrite run_bind, run_acquire_result_with_token.
  destruct (run w acquire_result) as [tr [e | d]]; cbn [fst snd];
    [discriminate |].
  rewrite run_conclude_with_token.
  destruct (dict_lookup "access_token" d) as [old |] eqn:Hd.
  - cbn [snd]. intros H _. injection H as H. symmetry. exact H.
  - rewrite (run_conclude_error w d Hd). cbn [snd].
    intros H Htruthy. injection H as H. subst token. discriminate Htruthy.
Qed.

(** ... and it is returned whenever the result carries an access token. *)
Lemma with_token_returns (t : pyval) (w : world) (tr : list call)
      (d : pydict) (old : pyval) :
  run w acquire_result = (tr, inr d) ->
  dict_lookup "access_token" d = Some old ->
  snd (run (with_token t w) authenticate_graph) = inr t.
Proof.
  intros Hacq Hd. unfold authenticate_graph.
  rewrite run_bind, run_acquire_result_with_token, Hacq. cbn [fst snd].
  rewrite run_conclude_with_token, Hd. reflexivity.
Qed.

End TokenFacts.

Module Token.
Import Py Prog Script Summary Scenario RunFacts FetchFacts AuthFacts.
Import ListingFacts LoginFacts TokenFacts.
Local Open Scope list_scope.

(** C8, as stated, fails: when the token holds a line break the HTTP client
    refuses the header with an exception that quotes it, and line 87 prints
    that text: the console shows [Bearer first-token], and it differs from
    the console of the same run with another token. *)
Lemma quoted_header_counterexample :
  let w := refusing_client (answering (ok (PDict (listing [mail1])))) in
  let first := PStr ("first-token" ++ nl) in
  let other := PStr ("other-token" ++ nl) in
  console (fst (run (with_token first w) fetch_emails_graph)) =
    [no_cached_token; (nl ++ rule)%string; "USER ACTION REQUIRED:"%string;
     "Open the page and enter the code A1B2C3."%string; (rule ++ nl)%string;
     banner;
     ("An error occurred: Invalid leading whitespace, reserved character(s), "
      ++ "or return character(s) in header value: 'Bearer first-token"
      ++ String backslash "n'")%string] /\
  console (fst (run (with_token first w) fetch_emails_graph)) <>
  console (fst (run (with_token other w) fetch_emails_graph)).
Proof.
  split; [reflexivity | discriminate].
Qed.

(** C8 (amended): take any world whose HTTP client answers without regard
    to the request headers, and let it issue the token [t1] or instead the
    token [t2], both truthy.  The two runs of the program make the same
    calls with the same arguments, the request headers apart, and so print
    the same lines: the console does not depend on the token.  Every
    request made in the run with [t1] carries the headers built from [t1],
    with [Bearer t1] under [Authorization]; and that request is made
    whenever the result of authentication carries an access token. *)
Theorem token_is_not_printed (w : world) (t1 t2 : pyval) :
  truthy t1 = true ->
  truthy t2 = true ->
  (forall h1 h2,
     w (RequestsGet endpoint h1 params) = w (RequestsGet endpoint h2 params)) ->
  map redact (fst (run (with_token t1 w) fetch_emails_graph)) =
  map redact (fst (run (with_token t2 w) fetch_emails_graph)) /\
  console (fst (run (with_token t1 w) fetch_emails_graph)) =
  console (fst (run (with_token t2 w) fetch_emails_graph)) /\
  (forall e h p,
     In (RequestsGet e h p) (fst (run (with_token t1 w) fetch_emails_graph)) ->
     h = headers t1 /\
     dict_lookup "Authorization" h = Some (PStr ("Bearer " ++ str t1)%string)) /\
  (forall tr d old,
     run w acquire_result = (tr, inr d) ->
     dict_lookup "access_token" d = Some old ->
     In (request t1) (fst (run (with_token t1 w) fetch_emails_graph))).
Proof.
  intros Ht1 Ht2 Hhttp.
  assert (Hcalls :
    map redact (fst (run (with_token t1 w) fetch_emails_graph)) =
    map redact (fst (run (with_token t2 w) fetch_emails_graph))).
  { unfold fetch_emails_graph, authenticate_graph.
    rewrite !run_bind, !run_acquire_result_with_token.
    destruct (run w acquire_result) as [tr [e | d]]; cbn [fst snd];
      [reflexivity |].
    rewrite !run_conclude_with_token.
    destruct (dict_lookup "access_token" d) as [old |].
    - rewrite Ht1, Ht2. cbn [negb].
      rewrite (run_fetch_step_world (with_token t1 w) w t1 eq_refl).
      rewrite (run_fetch_step_world (with_token t2 w) w t2 eq_refl).
      destruct (run_fetch_step_token w t1 t2 (Hhttp _ _)) as [Htr _].
      destruct (run w (fetch_step t1)) as [tr1 r1].
      destruct (run w (fetch_step t2)) as [tr2 r2].
      cbn [fst] in *. rewrite !map_app, Htr. reflexivity.
    - destruct (run w (conclude d)) as [trc [e | token]]; [reflexivity |].
      destruct (truthy token); cbn [negb].
      + rewrite (run_fetch_step_world (with_token t1 w) w token eq_refl).
        rewrite (run_fetch_step_world (with_token t2 w) w token eq_refl).
        reflexivity.
      + rewrite !run_print. reflexivity. }
  split; [exact Hcalls |]. split; [| split].
  - rewrite <- console_redact, Hcalls, console_redact. reflexivity.
  - intros e h p Hin.
    destruct (requests_of_run (with_token t1 w) e h p Hin)
      as (token & Hauth & Htruthy & Hreq).
    pose proof (token_of_with_token t1 w token Hauth Htruthy) as Heq.
    subst token. unfold request in Hreq. injection Hreq as _ Hh _.
    subst h. split; reflexivity.
  - intros tr d old Hacq Hd.
    apply request_is_made; [| exact Ht1].
    exact (with_token_returns t1 w tr d old Hacq Hd).
Qed.

Lemma token_is_not_printed_witness :
  let w := answering (ok (PDict (listing [mail1]))) in
  console (fst (run (with_token (PStr "first-token") w) fetch_emails_graph)) =
  console (fst (run (with_token (PStr "other-token") w) fetch_emails_graph))
  /\
  In (request (PStr "first-token"))
     (fst (run (with_token (PStr "first-token") w) fetch_emails_graph)).
Proof.
  intros w.
  destruct (token_is_not_printed w (PStr "first-token") (PStr "other-token"))
    as (_ & Hconsole & _ & Hmade).
  - reflexivity.
  - reflexivity.
  - reflexivity.
  - split; [exact Hconsole |].
    apply (Hmade (application :: GetAccounts
                    :: login_calls full_flow
                         (PStr "Open the page and enter the code A1B2C3.")
                         (PStr "https://microsoft.com/devicelogin"))
                 [("access_token", PStr "tok")] (PStr "tok"));
      reflexivity.
Defined.

End Token.
